(** * Transit performance analysis: the event interpretation engine

    A shallow embedding of [transit_performance_analysis.py]: the timestamp
    normalizer, the field extractor, the event classifier, the timeline
    builder, the facility transit accumulator, the shipment summarizer and
    the loop of the loader, followed by the properties the specification
    states about them and by further properties of the code.

    Modelling conventions.
    - A decoded JSON document is a [value]; a Python [dict] is the list of
      its items in insertion order (keys are unique in a decoded document).
    - Text is ASCII: [upper], [lower] and [strip] act on ASCII letters and
      ASCII white space and leave every other character alone.
    - A [datetime] keeps its wall-clock reading as a number of microseconds
      and its UTC offset when it has one.  POSIX timestamps, which the source
      holds in binary floating point, are exact numbers of microseconds here,
      and durations in hours are exact rationals; the year range of
      [datetime] (1 to 9999) is not enforced.
    - The host's local time zone has a fixed UTC offset, [tz_local].
    - [datetime.fromisoformat] reads the grammar CPython documents for it up
      to version 3.10; other text is a [ValueError].
    - [str] of a float, a list or a mapping is left open as [py_repr].
    - [print] is a log of [warning]s; an exception is a [Raise] outcome. *)

From Stdlib Require Import ZArith QArith List String Ascii Bool Lia.
From Stdlib Require Import Permutation Sorted ListSet DecimalString.
Import ListNotations.

Local Open Scope string_scope.
Local Open Scope Z_scope.
Local Open Scope list_scope.

(** ** Text *)

Module Text.

Definition is_upper (c : ascii) : bool :=
  let n := N_of_ascii c in ((65 <=? n) && (n <=? 90))%N.

Definition is_lower (c : ascii) : bool :=
  let n := N_of_ascii c in ((97 <=? n) && (n <=? 122))%N.

Definition is_space (c : ascii) : bool :=
  let n := N_of_ascii c in
  (((9 <=? n) && (n <=? 13)) || ((28 <=? n) && (n <=? 32)))%N.

Definition to_upper (c : ascii) : ascii :=
  if is_lower c then ascii_of_N (N_of_ascii c - 32) else c.

Definition to_lower (c : ascii) : ascii :=
  if is_upper c then ascii_of_N (N_of_ascii c + 32) else c.

(** [str.upper()] and [str.lower()]. *)
Fixpoint upper (s : string) : string :=
  match s with
  | EmptyString => EmptyString
  | String c r => String (to_upper c) (upper r)
  end.

Fixpoint lower (s : string) : string :=
  match s with
  | EmptyString => EmptyString
  | String c r => String (to_lower c) (lower r)
  end.

(** [s.startswith(p)] *)
Fixpoint starts_with (p s : string) : bool :=
  match p with
  | EmptyString => true
  | String a p' =>
      match s with
      | EmptyString => false
      | String b s' => Ascii.eqb a b && starts_with p' s'
      end
  end.

(** [needle in hay] on strings. *)
Fixpoint contains (needle hay : string) : bool :=
  starts_with needle hay
  || match hay with
     | EmptyString => false
     | String _ r => contains needle r
     end.

Fixpoint lstrip (s : string) : string :=
  match s with
  | String c r => if is_space c then lstrip r else s
  | EmptyString => EmptyString
  end.

Fixpoint rstrip (s : string) : string :=
  match s with
  | EmptyString => EmptyString
  | String c r =>
      match rstrip r with
      | EmptyString => if is_space c then EmptyString else String c EmptyString
      | r' => String c r'
      end
  end.

(** [str.strip()]. *)
Definition strip (s : string) : string := rstrip (lstrip s).

(** [str.endswith(c)] for a one-character suffix. *)
Fixpoint ends_with (c : ascii) (s : string) : bool :=
  match s with
  | EmptyString => false
  | String a EmptyString => Ascii.eqb a c
  | String _ r => ends_with c r
  end.

(** [str.replace('Z', '+00:00')]: every occurrence is replaced. *)
Fixpoint replace_Z (s : string) : string :=
  match s with
  | EmptyString => EmptyString
  | String c r =>
      if Ascii.eqb c "Z"%char then "+00:00" ++ replace_Z r
      else String c (replace_Z r)
  end%string.

(** Text of ASCII characters only. *)
Fixpoint is_ascii (s : string) : bool :=
  match s with
  | EmptyString => true
  | String c r => (N_of_ascii c <? 128)%N && is_ascii r
  end.

End Text.

(** ** Decoded JSON values *)

#[local] Set Warnings "-register-all".

Inductive value : Type :=
| VNone
| VBool (b : bool)
| VInt (n : Z)
| VFloat (x : Q)
| VStr (s : string)
| VList (items : list value)
| VDict (entries : list (string * value)).

(** Python truthiness, the test behind [if x], [not x] and [x and y]. *)
Definition truthy (v : value) : bool :=
  match v with
  | VNone => false
  | VBool b => b
  | VInt n => negb (n =? 0)
  | VFloat x => negb (Qeq_bool x 0)
  | VStr s => negb (String.eqb s "")
  | VList items => match items with [] => false | _ => true end
  | VDict entries => match entries with [] => false | _ => true end
  end.

Definition is_dict (v : value) : bool :=
  match v with VDict _ => true | _ => false end.

Definition is_str (v : value) : bool :=
  match v with VStr _ => true | _ => false end.

(** [key in d] and [d[key]] together. *)
Fixpoint dict_get (key : string) (entries : list (string * value)) : option value :=
  match entries with
  | [] => None
  | (k, v) :: rest => if String.eqb k key then Some v else dict_get key rest
  end.

(** ** Field extractor *)

(** [get_nested_value(data, *keys, default=default)]: the loop over [keys]
    carries [current], here the first argument. *)
Fixpoint get_nested_value (current : value) (keys : list string) (default : value) : value :=
  match keys with
  | [] => match current with VNone => default | _ => current end
  | key :: rest =>
      match current with
      | VDict entries =>
          match dict_get key entries with
          | Some v => get_nested_value v rest default
          | None => default
          end
      | _ => default
      end
  end.

(** The value found by following a key path through nested mappings. *)
Inductive at_path : value -> list string -> value -> Prop :=
| at_path_here v : at_path v [] v
| at_path_step entries key v rest leaf :
    dict_get key entries = Some v ->
    at_path v rest leaf ->
    at_path (VDict entries) (key :: rest) leaf.

(** The traversal cannot be completed: a segment is absent from a mapping, or
    a value that is not a mapping is reached while keys remain. *)
Inductive blocked : value -> list string -> Prop :=
| blocked_absent entries key rest :
    dict_get key entries = None -> blocked (VDict entries) (key :: rest)
| blocked_not_mapping v key rest :
    is_dict v = false -> blocked v (key :: rest)
| blocked_step entries key v rest :
    dict_get key entries = Some v ->
    blocked v rest ->
    blocked (VDict entries) (key :: rest).

(** ** Outcomes, warnings and the monad of the summarizer *)

Inductive exn : Type := TypeError | ValueError | AttributeError.

Inductive outcome (A : Type) : Type :=
| Ok (a : A)
| Raise (e : exn).

Arguments Ok {A} a.
Arguments Raise {A} e.

(** What the source prints with the prefix "Warning:". *)
Inductive warning : Type :=
| WarnTimestamp (raw : value)   (* Failed to parse timestamp ... *)
| WarnShipment (idx : nat).     (* Failed to process shipment ... *)

(** A computation that prints warnings and then returns or raises. *)
Definition M (A : Type) : Type := (list warning * outcome A)%type.

Definition ret {A} (a : A) : M A := ([], Ok a).

Definition bind {A B} (m : M A) (k : A -> M B) : M B :=
  match m with
  | (w, Ok a) => let '(w', r) := k a in (w ++ w', r)
  | (w, Raise e) => (w, Raise e)
  end.

Definition lift {A} (o : outcome A) : M A := ([], o).

Declare Scope py_scope.
Delimit Scope py_scope with py.
Notation "x <- m ;; k" := (bind m (fun x => k))
  (at level 61, m at next level, right associativity) : py_scope.

Definition bind_outcome {A B} (o : outcome A) (k : A -> outcome B) : outcome B :=
  match o with
  | Ok a => k a
  | Raise e => Raise e
  end.

(** ** Python built-ins on values *)

Fixpoint chars (s : string) : list value :=
  match s with
  | EmptyString => []
  | String c r => VStr (String c EmptyString) :: chars r
  end.

(** [for x in v]: the items of a list, the characters of a string, the keys
    of a mapping; anything else is not iterable. *)
Definition py_iter (v : value) : outcome (list value) :=
  match v with
  | VList items => Ok items
  | VStr s => Ok (chars s)
  | VDict entries => Ok (map (fun kv => VStr (fst kv)) entries)
  | _ => Raise TypeError
  end.

(** [len(v)]. *)
Definition py_len (v : value) : outcome Z :=
  match v with
  | VList items => Ok (Z.of_nat (List.length items))
  | VStr s => Ok (Z.of_nat (String.length s))
  | VDict entries => Ok (Z.of_nat (List.length entries))
  | _ => Raise TypeError
  end.

(** [v == s] for a string literal [s]. *)
Definition eq_str (v : value) (s : string) : bool :=
  match v with
  | VStr t => String.eqb t s
  | _ => false
  end.

Definition digit_of (c : ascii) : option Z :=
  let n := N_of_ascii c in
  if ((48 <=? n) && (n <=? 57))%N then Some (Z.of_N (n - 48)) else None.

(** Decimal digits, single underscores allowed between digits.  [after_digit]
    is false when a digit must come next. *)
Fixpoint int_digits (acc : Z) (after_digit : bool) (s : string) : option Z :=
  match s with
  | EmptyString => if after_digit then Some acc else None
  | String c r =>
      match digit_of c with
      | Some d => int_digits (10 * acc + d) true r
      | None =>
          if Ascii.eqb c "_"%char && after_digit then int_digits acc false r
          else None
      end
  end.

Definition int_of_text (s : string) : option Z :=
  match Text.strip s with
  | String "+"%char r => int_digits 0 false r
  | String "-"%char r => option_map Z.opp (int_digits 0 false r)
  | t => int_digits 0 false t
  end.

(** [int(v)] *)
Definition py_int (v : value) : outcome Z :=
  match v with
  | VInt n => Ok n
  | VBool b => Ok (if b then 1 else 0)
  | VFloat x => Ok (Z.quot (Qnum x) (Zpos (Qden x)))
  | VStr s => match int_of_text s with Some n => Ok n | None => Raise ValueError end
  | _ => Raise TypeError
  end.

(** Rounding to the nearest integer, ties to the even one, as
    [datetime.fromtimestamp] rounds to microseconds. *)
Definition round_half_even (x : Q) : Z :=
  let d := Zpos (Qden x) in
  let q := Qnum x / d in
  let r := Qnum x mod d in
  if 2 * r <? d then q
  else if d <? 2 * r then q + 1
  else if Z.even q then q else q + 1.

(** ** Instants *)

(** [wall]: microseconds shown by the wall clock, counted from
    1970-01-01T00:00:00 on that clock; [utcoffset]: microseconds east of UTC
    for an offset-aware instant, [None] for a naive one. *)
Record datetime : Type := {
  wall : Z;
  utcoffset : option Z
}.

Definition naive (w : Z) : datetime := {| wall := w; utcoffset := None |}.



(** [a - b] in microseconds; mixing naive and aware raises. *)
Definition dt_sub (a b : datetime) : outcome Z :=
  match utcoffset a, utcoffset b with
  | None, None => Ok (wall a - wall b)
  | Some oa, Some ob => Ok ((wall a - oa) - (wall b - ob))
  | _, _ => Raise TypeError
  end.

(** [td.total_seconds() / 3600.0] for a duration in microseconds. *)
Definition hours_of (us : Z) : Q := us # 3600000000.

(** ISO-8601 text, the grammar of [datetime.fromisoformat]:
    YYYY-MM-DD[*HH[:MM[:SS[.fff[fff]]]][+HH:MM[:SS[.ffffff]]]]. *)
Module Iso.

Notation "'let*' p ':=' e 'in' k" :=
  (match e with Some p => k | None => None end)
  (at level 10, p pattern, e at level 200, k at level 200, only parsing).

(** Exactly [n] decimal digits. *)
Fixpoint digits (n : nat) (acc : Z) (s : string) : option (Z * string) :=
  match n with
  | O => Some (acc, s)
  | S n' =>
      match s with
      | String c r =>
          match digit_of c with
          | Some d => digits n' (10 * acc + d) r
          | None => None
          end
      | EmptyString => None
      end
  end.

Definition expect (c : ascii) (s : string) : option string :=
  match s with
  | String a r => if Ascii.eqb a c then Some r else None
  | EmptyString => None
  end.

Definition is_leap (y : Z) : bool :=
  (y mod 4 =? 0) && (negb (y mod 100 =? 0) || (y mod 400 =? 0)).

Definition days_in_month (y m : Z) : Z :=
  if m =? 2 then (if is_leap y then 29 else 28)
  else if (m =? 4) || (m =? 6) || (m =? 9) || (m =? 11) then 30
  else 31.

(** Days from 1970-01-01 to the given civil date. *)
Definition days_from_civil (y m d : Z) : Z :=
  let y' := if m <=? 2 then y - 1 else y in
  let era := y' / 400 in
  let yoe := y' - era * 400 in
  let mp := (m + 9) mod 12 in
  let doy := (153 * mp + 2) / 5 + d - 1 in
  let doe := yoe * 365 + yoe / 4 - yoe / 100 + doy in
  era * 146097 + doe - 719468.

Definition parse_date (s : string) : option (Z * string) :=
  let* (y, s1) := digits 4 0 s in
  let* s2 := expect "-" s1 in
  let* (m, s3) := digits 2 0 s2 in
  let* s4 := expect "-" s3 in
  let* (d, s5) := digits 2 0 s4 in
  if (1 <=? y) && (1 <=? m) && (m <=? 12) && (1 <=? d) && (d <=? days_in_month y m)
  then Some (days_from_civil y m d, s5)
  else None.

(** Three or six digits of a second's fraction, in microseconds. *)
Definition parse_fraction (s : string) : option (Z * string) :=
  match digits 6 0 s with
  | Some r => Some r
  | None => let* (f, r) := digits 3 0 s in Some (f * 1000, r)
  end.

(** HH[:MM[:SS[.fff[fff]]]]: hour, minute, second, microsecond and the rest. *)
Definition parse_hms (s : string) : option (Z * Z * Z * Z * string) :=
  let* (h, s1) := digits 2 0 s in
  match expect ":" s1 with
  | None => Some (h, 0, 0, 0, s1)
  | Some s2 =>
      let* (m, s3) := digits 2 0 s2 in
      match expect ":" s3 with
      | None => Some (h, m, 0, 0, s3)
      | Some s4 =>
          let* (sec, s5) := digits 2 0 s4 in
          match expect "." s5 with
          | None => Some (h, m, sec, 0, s5)
          | Some s6 => let* (f, s7) := parse_fraction s6 in Some (h, m, sec, f, s7)
          end
      end
  end.

Definition micros (h m sec f : Z) : Z := ((h * 60 + m) * 60 + sec) * 1000000 + f.

Definition day_us : Z := 86400000000.

(** The UTC offset, when the text goes on after the time. *)
Definition parse_offset (s : string) : option (option Z) :=
  match s with
  | EmptyString => Some None
  | String sign r =>
      let sgn := if Ascii.eqb sign "+"%char then Some 1
                 else if Ascii.eqb sign "-"%char then Some (-1) else None in
      let* k := sgn in
      let* (h, m, sec, f, rest) := parse_hms r in
      match rest with
      | EmptyString =>
          if micros h m sec f <? day_us then Some (Some (k * micros h m sec f)) else None
      | _ => None
      end
  end.

Definition fromisoformat (s : string) : outcome datetime :=
  match parse_date s with
  | None => Raise ValueError
  | Some (days, EmptyString) => Ok (naive (days * day_us))
  | Some (days, String _ time) =>
      match parse_hms time with
      | None => Raise ValueError
      | Some (h, m, sec, f, rest) =>
          if (h <? 24) && (m <? 60) && (sec <? 60) then
            match parse_offset rest with
            | Some off =>
                Ok {| wall := days * day_us + micros h m sec f; utcoffset := off |}
            | None => Raise ValueError
            end
          else Raise ValueError
      end
  end.

End Iso.

(** The zone of the deployment the output columns are named after (IST). *)
Definition ist : Z := 19800.

(** A stand-in for [repr] where its text plays no part. *)
Definition repr_blank (v : value) : string := "".

(** ** The program, on a host with local offset [tz_local] *)

Section Host.

(** UTC offset of the host's zone, in seconds. *)
Variable tz_local : Z.

(** The text [repr] gives for a float, a list or a mapping. *)
Variable py_repr : value -> string.

(** [str(v)], also what an f-string field prints. *)
Definition py_str (v : value) : string :=
  match v with
  | VStr s => s
  | VNone => "None"
  | VBool b => if b then "True" else "False"
  | VInt n => NilZero.string_of_int (Z.to_int n)
  | _ => py_repr v
  end.

(** [datetime.fromtimestamp(x)] for [x] a POSIX time in microseconds: the
    naive instant of the host's wall clock. *)
Definition fromtimestamp (posix : Z) : datetime :=
  naive (posix + tz_local * 1000000).

(** [dt.timestamp()], in microseconds: a naive instant is read on the host's
    clock. *)
Definition timestamp_of (dt : datetime) : Z :=
  match utcoffset dt with
  | None => wall dt - tz_local * 1000000
  | Some off => wall dt - off
  end.

(** *** Timestamp normalizer *)

(** The body of the [try] block of [parse_timestamp]. *)
Definition parse_attempt (timestamp_value : value) : outcome (option datetime) :=
  match timestamp_value with
  | VDict entries =>
      match dict_get "$numberLong" entries with
      | Some payload =>
          bind_outcome (py_int payload) (fun milliseconds =>
          Ok (Some (fromtimestamp (milliseconds * 1000))))
      | None => Ok None
      end
  | VStr s =>
      if Text.contains "+" s || Text.ends_with "Z" s
      then bind_outcome (Iso.fromisoformat (Text.replace_Z s)) (fun dt => Ok (Some dt))
      else bind_outcome (Iso.fromisoformat s) (fun dt => Ok (Some dt))
  | VInt n => Ok (Some (fromtimestamp (n * 1000)))
  | VBool b => Ok (Some (fromtimestamp ((if b then 1 else 0) * 1000)))
  | VFloat x => Ok (Some (fromtimestamp (round_half_even (x * 1000)%Q)))
  | _ => Ok None
  end.

Definition parse_timestamp (timestamp_value : value) : list warning * option datetime :=
  match timestamp_value with
  | VNone => ([], None)
  | _ =>
      match parse_attempt timestamp_value with
      | Ok r => ([], r)
      | Raise _ => ([WarnTimestamp timestamp_value], None)
      end
  end.

(** [parse_timestamp] inside the monad: it never raises. *)
Definition parse_timestamp_m (timestamp_value : value) : M (option datetime) :=
  let '(w, r) := parse_timestamp timestamp_value in (w, Ok r).

(** *** Address extraction *)

Definition extract_address (address_data : value) : value * value * value :=
  if negb (truthy address_data) || negb (is_dict address_data)
  then (VNone, VNone, VNone)
  else (get_nested_value address_data ["city"] VNone,
        get_nested_value address_data ["stateOrProvinceCode"] VNone,
        get_nested_value address_data ["postalCode"] VNone).

(** *** Event classifier *)

Definition event_type (event : value) : value :=
  get_nested_value event ["eventType"] (VStr "").

(** [str(event_description).lower()] *)
Definition description_lower (event : value) : string :=
  Text.lower (py_str (get_nested_value event ["eventDescription"] (VStr ""))).

Definition pickup_test (event : value) : bool :=
  eq_str (event_type event) "PU" || Text.contains "pick" (description_lower event).

Definition delivery_test (event : value) : bool :=
  eq_str (event_type event) "DL" || Text.contains "deliver" (description_lower event).

Definition attempt_test (event : value) : bool :=
  eq_str (event_type event) "OD"
  || Text.contains "vehicle" (description_lower event)
  || Text.contains "out for delivery" (description_lower event).

Definition find_pickup_event (events : value) : outcome (option value) :=
  if negb (truthy events) then Ok None
  else bind_outcome (py_iter events) (fun evs => Ok (find pickup_test evs)).

Definition find_delivery_event (events : value) : outcome (option value) :=
  if negb (truthy events) then Ok None
  else bind_outcome (py_iter events) (fun evs => Ok (find delivery_test evs)).

Definition arrival_location (event : value) : value :=
  get_nested_value event ["arrivalLocation"] (VStr "").

(** f"{location}_{city}_{postal}" of an event. *)
Definition facility_key (event : value) : string :=
  let address := get_nested_value event ["address"] (VDict []) in
  let city := get_nested_value address ["city"] (VStr "") in
  let postal := get_nested_value address ["postalCode"] (VStr "") in
  (py_str (arrival_location event) ++ "_" ++ py_str city ++ "_" ++ py_str postal)%string.

(** One turn of the loop of [count_unique_facilities]; the set is the list
    of its members. *)
Definition facility_step (unique_facilities : list string) (event : value) : list string :=
  let location := arrival_location event in
  if truthy location && Text.contains "FACILITY" (Text.upper (py_str location)) then
    let facility_id := Text.strip (facility_key event) in
    if negb (String.eqb facility_id "")
    then set_add string_dec facility_id unique_facilities
    else unique_facilities
  else unique_facilities.

Definition count_unique_facilities (events : value) : outcome Z :=
  if negb (truthy events) then Ok 0
  else bind_outcome (py_iter events) (fun evs =>
       Ok (Z.of_nat (List.length (fold_left facility_step evs [])))).

Definition count_transit_events (events : value) : outcome Z :=
  if negb (truthy events) then Ok 0
  else bind_outcome (py_iter events) (fun evs =>
       Ok (fold_left (fun count event =>
                        if eq_str (event_type event) "IT" then count + 1 else count)
                     evs 0)).

Definition count_delivery_attempts (events : value) : outcome Z :=
  if negb (truthy events) then Ok 0
  else bind_outcome (py_iter events) (fun evs =>
       Ok (fold_left (fun count event =>
                        if attempt_test event then count + 1 else count)
                     evs 0)).

(** *** Timeline builder *)

Definition seen_mem (t : Z) (seen_timestamps : list Z) : bool :=
  existsb (Z.eqb t) seen_timestamps.

(** The [while] loop that looks for an unused instant: the offset grows by a
    millisecond per turn.  [fuel] bounds the turns. *)
Fixpoint bump (fuel : nat) (seen_timestamps : list Z) (base_time offset : Z) : Z :=
  match fuel with
  | O => offset
  | S fuel' =>
      if seen_mem (base_time + offset) seen_timestamps
      then bump fuel' seen_timestamps base_time (offset + 1000)
      else offset
  end.

(** The state of the collecting loop: the warnings printed, the set
    [seen_timestamps] and the list [sorted_events]. *)
Definition collect_state : Type :=
  (list warning * (list Z * list (datetime * value)))%type.

Definition collect_step (st : collect_state) (event : value) : collect_state :=
  let '(log, (seen_timestamps, sorted_events)) := st in
  let '(w, timestamp) := parse_timestamp (get_nested_value event ["timestamp"] VNone) in
  match timestamp with
  | Some ts =>
      let base_time := timestamp_of ts in
      let offset := bump (S (List.length seen_timestamps)) seen_timestamps base_time 0 in
      let final_time := fromtimestamp (base_time + offset) in
      (log ++ w, (timestamp_of final_time :: seen_timestamps,
                  sorted_events ++ [(final_time, event)]))
  | None => (log ++ w, (seen_timestamps, sorted_events))
  end.

Definition collect (evs : list value) : collect_state :=
  fold_left collect_step evs ([], ([], [])).

(** [sorted_events.sort(key=lambda x: x[0])]: the sort is stable, so its
    result is the one of stable insertion; the keys are naive instants. *)
Fixpoint insert_event (x : datetime * value) (l : list (datetime * value)) :
  list (datetime * value) :=
  match l with
  | [] => [x]
  | y :: r => if wall (fst x) <=? wall (fst y) then x :: l else y :: insert_event x r
  end.

Definition sort_events (l : list (datetime * value)) : list (datetime * value) :=
  fold_right insert_event [] l.

(** The ordered timeline and the warnings printed on the way. *)
Definition build_timeline (evs : list value) : list warning * list (datetime * value) :=
  let '(log, (_, sorted_events)) := collect evs in (log, sort_events sorted_events).

(** *** Facility transit accumulator *)

(** [location and "FACILITY" in location.upper()], as a truth value. *)
Definition facility_flag (location : value) : outcome bool :=
  if truthy location then
    match location with
    | VStr s => Ok (Text.contains "FACILITY" (Text.upper s))
    | _ => Raise AttributeError
    end
  else Ok false.

(** One turn of the loop over consecutive pairs. *)
Definition pair_step (total_hours : Q) (current next : datetime * value) : outcome Q :=
  let current_facility := facility_key (snd current) in
  let next_facility := facility_key (snd next) in
  bind_outcome (facility_flag (arrival_location (snd current))) (fun is_current_facility =>
  bind_outcome (facility_flag (arrival_location (snd next))) (fun is_next_facility =>
  if is_current_facility && is_next_facility
     && negb (String.eqb current_facility next_facility)
  then
    bind_outcome (dt_sub (fst next) (fst current)) (fun us =>
    let hours_between := hours_of us in
    if negb (Qle_bool hours_between 0)
    then Ok (total_hours + hours_between)%Q
    else Ok total_hours)
  else Ok total_hours)).

Fixpoint accumulate (total_hours : Q) (sorted_events : list (datetime * value)) : outcome Q :=
  match sorted_events with
  | current :: ((next :: _) as rest) =>
      bind_outcome (pair_step total_hours current next) (fun total => accumulate total rest)
  | _ => Ok total_hours
  end.

Definition calculate_facility_transit_time (events : value) : M Q :=
  if negb (truthy events) then ret 0%Q
  else
    (n <- lift (py_len events) ;;
     if n <? 2 then ret 0%Q
     else
       evs <- lift (py_iter events) ;;
       let '(log, sorted_events) := build_timeline evs in
       (log, accumulate 0 sorted_events))%py.

(** *** Shipment summarizer *)

Definition is_express_service (service_type : value) : bool :=
  if negb (truthy service_type) then false
  else
    let service_upper := Text.upper (py_str service_type) in
    Text.contains "EXPRESS" service_upper && negb (Text.contains "SAVER" service_upper).

(** The output record.  The two date columns hold the wall-clock second that
    [strftime("%Y-%m-%d %H:%M:%S")] prints. *)
Record metrics : Type := {
  tracking_number : value;
  service_type : value;
  carrier_code : value;
  package_weight_kg : value;
  packaging_type : value;
  origin_city : value;
  origin_state : value;
  origin_pincode : value;
  destination_city : value;
  destination_state : value;
  destination_pincode : value;
  pickup_datetime_ist : option Z;
  delivery_datetime_ist : option Z;
  total_transit_hours : option Q;
  num_facilities_visited : Z;
  num_in_transit_events : Z;
  time_in_inter_facility_transit_hours : Q;
  avg_hours_per_facility : option Q;
  is_express_service_flag : bool;
  delivery_location_type : value;
  num_out_for_delivery_attempts : Z;
  first_attempt_delivery : bool;
  total_events_count : Z
}.

(** The fallback scan of [datesOrTimes] for a milestone of the given type. *)
Definition milestone_time (shipment : value) (kind : string) : M (option datetime) :=
  (dates_or_times <- lift (py_iter (get_nested_value shipment ["datesOrTimes"] (VList []))) ;;
   match find (fun date_time => eq_str (get_nested_value date_time ["type"] (VStr "")) kind)
              dates_or_times with
   | Some date_time =>
       parse_timestamp_m (get_nested_value date_time ["dateOrTimestamp"] VNone)
   | None => ret None
   end)%py.

Definition event_time (found : option value) : M (option datetime) :=
  match found with
  | Some event =>
      if truthy event
      then parse_timestamp_m (get_nested_value event ["timestamp"] VNone)
      else ret None
  | None => ret None
  end.

Definition strftime (dt : datetime) : Z := wall dt / 1000000.

Definition process_shipment (shipment : value) : M (option metrics) :=
  if negb (truthy shipment) || negb (is_dict shipment) then ret None
  else
    let tracking_number := get_nested_value shipment ["trackingNumber"] VNone in
    let service_type := get_nested_value shipment ["service"; "type"] VNone in
    let carrier_code := get_nested_value shipment ["carrierCode"] VNone in
    let package_weight := get_nested_value shipment ["packageWeight"; "value"] VNone in
    let packaging_type := get_nested_value shipment ["packaging"; "type"] VNone in
    let '(o_city, o_state, o_pin) :=
      extract_address (get_nested_value shipment ["shipperAddress"] (VDict [])) in
    let '(d_city, d_state, d_pin) :=
      extract_address (get_nested_value shipment ["destinationAddress"] (VDict [])) in
    let events := get_nested_value shipment ["events"] (VList []) in
    (pickup_event <- lift (find_pickup_event events) ;;
     delivery_event <- lift (find_delivery_event events) ;;
     pickup_time0 <- event_time pickup_event ;;
     delivery_time0 <- event_time delivery_event ;;
     pickup_time <- match pickup_time0 with
                    | Some t => ret (Some t)
                    | None => milestone_time shipment "ACTUAL_PICKUP"
                    end ;;
     delivery_time <- match delivery_time0 with
                      | Some t => ret (Some t)
                      | None => milestone_time shipment "ACTUAL_DELIVERY"
                      end ;;
     total_transit_hours <- match pickup_time, delivery_time with
                            | Some p, Some d =>
                                lift (bind_outcome (dt_sub d p) (fun us => Ok (Some (hours_of us))))
                            | _, _ => ret None
                            end ;;
     facilities_count <- lift (count_unique_facilities events) ;;
     transit_events_count <- lift (count_transit_events events) ;;
     facility_transit_time <- calculate_facility_transit_time events ;;
     let avg_hours_per_facility :=
       match total_transit_hours with
       | Some t =>
           if negb (Qeq_bool t 0) && (0 <? facilities_count)
           then Some (t / inject_Z facilities_count)%Q
           else None
       | None => None
       end in
     delivery_attempts <- lift (count_delivery_attempts events) ;;
     total_events <- (if truthy events then lift (py_len events) else ret 0) ;;
     ret (Some {|
       tracking_number := tracking_number;
       service_type := service_type;
       carrier_code := carrier_code;
       package_weight_kg := package_weight;
       packaging_type := packaging_type;
       origin_city := o_city;
       origin_state := o_state;
       origin_pincode := o_pin;
       destination_city := d_city;
       destination_state := d_state;
       destination_pincode := d_pin;
       pickup_datetime_ist := option_map strftime pickup_time;
       delivery_datetime_ist := option_map strftime delivery_time;
       total_transit_hours := total_transit_hours;
       num_facilities_visited := facilities_count;
       num_in_transit_events := transit_events_count;
       time_in_inter_facility_transit_hours := facility_transit_time;
       avg_hours_per_facility := avg_hours_per_facility;
       is_express_service_flag := is_express_service service_type;
       delivery_location_type := get_nested_value shipment ["deliveryLocationType"] VNone;
       num_out_for_delivery_attempts := delivery_attempts;
       first_attempt_delivery := (delivery_attempts =? 1);
       total_events_count := total_events
     |}))%py.

(** *** The loop of [load_data] over the shipment records *)

(** State: index of the next record, warnings printed, [processed_shipments]. *)
Definition batch_step (st : nat * list warning * list metrics) (shipment : value) :
  nat * list warning * list metrics :=
  let '(idx, log, processed_shipments) := st in
  match process_shipment shipment with
  | (w, Ok (Some result)) => (S idx, log ++ w, processed_shipments ++ [result])
  | (w, Ok None) => (S idx, log ++ w, processed_shipments)
  | (w, Raise _) => (S idx, log ++ w ++ [WarnShipment idx], processed_shipments)
  end.

Definition process_records (shipment_records : list value) : list warning * list metrics :=
  let '(_, log, processed_shipments) := fold_left batch_step shipment_records (O, [], []) in
  (log, processed_shipments).

(** The records of a decoded document whose top level is a list: a mapping
    contributes its [trackDetails], anything else is a record itself. *)
Fixpoint flatten_items (items shipment_records : list value) : outcome (list value) :=
  match items with
  | [] => Ok shipment_records
  | item :: rest =>
      match item with
      | VDict entries =>
          let track_details :=
            match dict_get "trackDetails" entries with
            | Some v => v
            | None => VList []
            end in
          bind_outcome (py_iter track_details) (fun l =>
          flatten_items rest (shipment_records ++ l))
      | _ => flatten_items rest (shipment_records ++ [item])
      end
  end.

(** [load_data], from the decoded document on; the result stands for the
    rows of the data frame. *)
Definition load_data (data : value) : M (list metrics) :=
  let run (records : outcome (list value)) : M (list metrics) :=
    match records with
    | Ok shipment_records =>
        let '(log, processed_shipments) := process_records shipment_records in
        (log, Ok processed_shipments)
    | Raise e => ([], Raise e)
    end in
  match data with
  | VList items => run (flatten_items items [])
  | VDict entries =>
      match dict_get "trackDetails" entries with
      | Some shipment_records =>
          run (bind_outcome (py_len shipment_records) (fun _ => py_iter shipment_records))
      | None => run (Ok [data])
      end
  | _ => ([], Raise ValueError)
  end.

(** *** Notions the properties are stated with *)

(** The POSIX time, in microseconds, an event's timestamp normalizes to. *)
Definition stamp (event : value) : option Z :=
  option_map timestamp_of
    (snd (parse_timestamp (get_nested_value event ["timestamp"] VNone))).


Definition has_stamp (event : value) : bool :=
  match stamp event with Some _ => true | None => false end.

(** What is known of an entry of [sorted_events] while the set is [seen]: its
    instant is naive, lies a whole number of milliseconds after the time the
    event's timestamp normalizes to, and every earlier such slot is taken. *)
Definition slot_of (seen : list Z) (x : datetime * value) : Prop :=
  utcoffset (fst x) = None
  /\ exists b (n : nat),
       stamp (snd x) = Some b
       /\ timestamp_of (fst x) = b + 1000 * Z.of_nat n
       /\ forall k : nat, (k < n)%nat -> In (b + 1000 * Z.of_nat k) seen.

(** The invariant of the collecting loop after the events [evs]. *)
Definition collect_inv (evs : list value) (st : collect_state) : Prop :=
  let '(_, (seen, collected)) := st in
  (forall t, In t seen <-> In t (map (fun x => timestamp_of (fst x)) collected))
  /\ Forall (slot_of seen) collected
  /\ map snd collected = filter has_stamp evs
  /\ (forall i j x y b,
        (i < j)%nat ->
        nth_error collected i = Some x ->
        nth_error collected j = Some y ->
        stamp (snd x) = Some b ->
        stamp (snd y) = Some b ->
        timestamp_of (fst x) < timestamp_of (fst y))
  /\ NoDup (map (fun x => timestamp_of (fst x)) collected).

(** A facility-arrival event: [arrivalLocation] is a non-empty text that
    contains FACILITY in some letter case. *)
Definition facility_arrival (event : value) : bool :=
  match arrival_location event with
  | VStr s => negb (String.eqb s "") && Text.contains "FACILITY" (Text.upper s)
  | _ => false
  end.

(** The data model's typing of [arrivalLocation]: free text when present. *)
Definition text_location (event : value) : bool :=
  is_str (arrival_location event) || negb (truthy (arrival_location event)).

(** A timeline entry the accumulator can digest: a naive instant and an
    event whose [arrivalLocation] is text. *)
Definition timeline_entry_ok (x : datetime * value) : Prop :=
  utcoffset (fst x) = None /\ text_location (snd x) = true.

(** The microseconds a pair of consecutive timeline entries contributes: the
    time between them when both are facility arrivals at different
    FacilityKeys and that time is positive, nothing otherwise. *)
Definition pair_credit (current next : datetime * value) : Z :=
  if facility_arrival (snd current) && facility_arrival (snd next)
     && negb (String.eqb (facility_key (snd current)) (facility_key (snd next)))
     && (0 <? wall (fst next) - wall (fst current))
  then wall (fst next) - wall (fst current)
  else 0.

Fixpoint inter_facility_us (timeline : list (datetime * value)) : Z :=
  match timeline with
  | current :: ((next :: _) as rest) => pair_credit current next + inter_facility_us rest
  | _ => 0
  end.


(** A record that is processed into an output record. *)
Definition processed (shipment : value) : Prop :=
  exists w r, process_shipment shipment = (w, Ok (Some r)).

(** A record that is absent or is not a mapping. *)
Definition malformed (shipment : value) : Prop :=
  is_dict shipment = false.

(** The facility id [count_unique_facilities] keeps for an event, when it
    keeps one. *)
Definition facility_id_of (event : value) : option string :=
  let location := arrival_location event in
  if truthy location && Text.contains "FACILITY" (Text.upper (py_str location)) then
    let facility_id := Text.strip (facility_key event) in
    if negb (String.eqb facility_id "") then Some facility_id else None
  else None.


(** The events whose timestamp normalizes, each with the POSIX time it
    normalizes to, in input order. *)
Definition stamped (evs : list value) : list (Z * value) :=
  flat_map (fun event => match stamp event with
                         | Some t => [(t, event)]
                         | None => []
                         end) evs.




Definition is_shipment_warning (w : warning) : bool :=
  match w with WarnShipment _ => true | WarnTimestamp _ => false end.

(** A log without any "Failed to process shipment" warning. *)
Definition no_shipment_warning (log : list warning) : Prop :=
  Forall (fun w => is_shipment_warning w = false) log.

End Host.

(** ** Sample records *)

Module Samples.

Definition address (city postal : string) : value :=
  VDict [("city", VStr city); ("postalCode", VStr postal)].

Definition event (type location city postal stamp : string) : value :=
  VDict [("eventType", VStr type);
         ("arrivalLocation", VStr location);
         ("address", address city postal);
         ("timestamp", VStr stamp)].



(** Picked up and delivered at the same instant, through one facility. *)
Definition shipment_zero_transit : value :=
  VDict [("trackingNumber", VStr "1001");
         ("events",
          VList [event "PU" "FEDEX_FACILITY" "MEMPHIS" "38116" "2024-03-01T10:00:00";
                 event "DL" "" "MEMPHIS" "38116" "2024-03-01T10:00:00"])].

(** An ordinary shipment: pickup, two facilities, one delivery attempt. *)
Definition shipment_ok : value :=
  VDict [("trackingNumber", VStr "1002");
         ("service", VDict [("type", VStr "FEDEX_EXPRESS")]);
         ("events",
          VList [event "PU" "" "PUNE" "411001" "2024-03-01T08:00:00";
                 event "AR" "ORIGIN_FEDEX_FACILITY" "PUNE" "411001" "2024-03-01T10:00:00";
                 event "AR" "DESTINATION_FEDEX_FACILITY" "DELHI" "110001" "2024-03-02T10:00:00";
                 event "OD" "" "DELHI" "110001" "2024-03-02T12:00:00";
                 event "DL" "" "DELHI" "110001" "2024-03-02T15:00:00"])].

(** No events, but both milestones. *)
Definition shipment_milestones_only : value :=
  VDict [("trackingNumber", VStr "1003");
         ("events", VList []);
         ("datesOrTimes",
          VList [VDict [("type", VStr "ACTUAL_PICKUP");
                        ("dateOrTimestamp", VStr "2024-03-01T08:00:00")];
                 VDict [("type", VStr "ACTUAL_DELIVERY");
                        ("dateOrTimestamp", VStr "2024-03-02T08:00:00")]])].

(** No events and no milestones. *)
Definition shipment_bare : value :=
  VDict [("trackingNumber", VStr "1004"); ("events", VList [])].

(** Two facility arrivals whose field triples differ and whose keys agree. *)
Definition arrival_a : value :=
  event "AR" "FEDEX_FACILITY_X" "Y" "1" "2024-03-01T10:00:00".
Definition arrival_b : value :=
  event "AR" "FEDEX_FACILITY" "X_Y" "1" "2024-03-01T12:00:00".

(** A facility arrival elsewhere. *)
Definition arrival_c : value :=
  event "AR" "FEDEX_FACILITY" "Z" "1" "2024-03-01T12:00:00".

(** Facility A twice, then facility B: 10:00, 11:00 and 13:00. *)
Definition visit_a1 : value :=
  event "AR" "ORIGIN_FEDEX_FACILITY" "PUNE" "411001" "2024-03-01T10:00:00".
Definition visit_b : value :=
  event "AR" "DESTINATION_FEDEX_FACILITY" "DELHI" "110001" "2024-03-01T13:00:00".



(** Picked up on an offset-free clock, delivered on a UTC clock. *)
Definition shipment_mixed_clocks : value :=
  VDict [("trackingNumber", VStr "1005");
         ("events",
          VList [event "PU" "" "PUNE" "411001" "2024-03-01T08:00:00";
                 event "DL" "" "DELHI" "110001" "2024-03-02T08:00:00Z"])].

(** Picked up and delivered on a UTC clock. *)
Definition shipment_utc : value :=
  VDict [("trackingNumber", VStr "1006");
         ("events",
          VList [event "PU" "" "PUNE" "411001" "2024-03-01T08:00:00Z";
                 event "DL" "" "DELHI" "110001" "2024-03-02T08:00:00Z"])].

(** A container of two shipment records. *)
Definition container : list (string * value) :=
  [("trackDetails", VList [shipment_ok; shipment_bare])].

End Samples.

(** * Properties *)

(** ** The field extractor *)

Lemma at_path_or_blocked data keys :
  (exists leaf, at_path data keys leaf) \/ blocked data keys.
Proof.
  revert data; induction keys as [|key rest IH]; intros data.
  - left; exists data; constructor.
  - destruct data as [| | | | |items|entries];
      try (right; apply blocked_not_mapping; reflexivity).
    destruct (dict_get key entries) as [v|] eqn:E.
    + destruct (IH v) as [[leaf H]|H].
      * left; exists leaf; econstructor; eassumption.
      * right; eapply blocked_step; eassumption.
    + right; now apply blocked_absent.
Qed.

Lemma get_nested_value_at_path data keys default leaf :
  at_path data keys leaf ->
  get_nested_value data keys default =
  match leaf with VNone => default | _ => leaf end.
Proof.
  induction 1 as [v|entries key v rest leaf E _ IH]; simpl.
  - reflexivity.
  - now rewrite E.
Qed.

Lemma get_nested_value_blocked data keys default :
  blocked data keys -> get_nested_value data keys default = default.
Proof.
  induction 1 as [entries key rest E|v key rest E|entries key v rest E _ IH]; simpl.
  - now rewrite E.
  - destruct v; try reflexivity; discriminate.
  - now rewrite E.
Qed.

(** C8. [get_nested_value] is a total function (it cannot raise); it returns
    the value found at the key path when that value is not null, and the
    default when the leaf is an explicit null, when a segment is absent, or
    when a non-mapping value is reached before the path is exhausted; one of
    these cases always applies. *)
Theorem get_nested_value_contract (data : value) (keys : list string) (default : value) :
  (forall leaf, at_path data keys leaf -> leaf <> VNone ->
                get_nested_value data keys default = leaf)
  /\ (at_path data keys VNone -> get_nested_value data keys default = default)
  /\ (blocked data keys -> get_nested_value data keys default = default)
  /\ ((exists leaf, at_path data keys leaf) \/ blocked data keys).
Proof.
  repeat split.
  - intros leaf H Hn. rewrite (get_nested_value_at_path _ _ _ _ H).
    destruct leaf; congruence.
  - intros H. now rewrite (get_nested_value_at_path _ _ _ _ H).
  - apply get_nested_value_blocked.
  - apply at_path_or_blocked.
Qed.

(** ** ISO-8601 text with a trailing Z *)

Module IsoFacts.
Import Iso.













End IsoFacts.




(** ** The timestamp normalizer and the timeline builder *)

Section Timeline.

Variable tz : Z.

Lemma timestamp_of_fromtimestamp x : timestamp_of tz (fromtimestamp tz x) = x.
Proof. unfold timestamp_of, fromtimestamp; simpl; lia. Qed.



(** *** The timeline builder *)

Lemma seen_mem_In t seen : seen_mem t seen = true <-> In t seen.
Proof.
  unfold seen_mem. rewrite existsb_exists. split.
  - intros (x & Hx & E). apply Z.eqb_eq in E. now subst.
  - intros H. exists t. split; [assumption|apply Z.eqb_refl].
Qed.

Lemma filter_from_le (seen : list Z) (t : Z) :
  (List.length (filter (fun x => (t + 1000 <=? x)%Z) seen)
   <= List.length (filter (fun x => (t <=? x)%Z) seen))%nat.
Proof.
  induction seen as [|a seen IH]; simpl; [lia|].
  destruct (t + 1000 <=? a) eqn:E1; destruct (t <=? a) eqn:E2; simpl; lia.
Qed.

Lemma filter_from_lt (seen : list Z) (t : Z) :
  In t seen ->
  (List.length (filter (fun x => (t + 1000 <=? x)%Z) seen)
   < List.length (filter (fun x => (t <=? x)%Z) seen))%nat.
Proof.
  induction seen as [|a seen IH]; simpl; [tauto|].
  intros [->|H].
  - rewrite Z.leb_refl. replace (t + 1000 <=? t) with false by lia.
    simpl. pose proof (filter_from_le seen t). lia.
  - specialize (IH H).
    destruct (t + 1000 <=? a) eqn:E1; destruct (t <=? a) eqn:E2; simpl; lia.
Qed.

(** The search for an unused instant ends within its fuel: it stops at the
    first multiple of a millisecond past [base_time + offset] that is not in
    the set, every earlier one being taken. *)
Lemma bump_spec fuel (seen : list Z) (b off : Z) :
  (List.length (filter (fun x => (b + off <=? x)%Z) seen) < fuel)%nat ->
  exists n : nat,
    bump fuel seen b off = off + 1000 * Z.of_nat n
    /\ seen_mem (b + (off + 1000 * Z.of_nat n)) seen = false
    /\ forall k : nat, (k < n)%nat -> In (b + (off + 1000 * Z.of_nat k)) seen.
Proof.
  revert off; induction fuel as [|fuel IH]; intros off Hlen; [lia|].
  cbn [bump]. destruct (seen_mem (b + off) seen) eqn:E.
  - apply seen_mem_In in E.
    destruct (IH (off + 1000)) as (n & Hn & Hfree & Hbelow).
    + pose proof (filter_from_lt seen (b + off) E) as Hlt.
      assert (Hext : filter (fun x => (b + (off + 1000) <=? x)%Z) seen
                     = filter (fun x => (b + off + 1000 <=? x)%Z) seen).
      { apply filter_ext. intros a. now rewrite Z.add_assoc. }
      rewrite Hext. lia.
    + exists (S n). rewrite Hn. split; [lia|split].
      * rewrite <- Hfree. f_equal. lia.
      * intros [|k] Hk.
        -- now replace (b + (off + 1000 * Z.of_nat 0)) with (b + off) by lia.
        -- replace (b + (off + 1000 * Z.of_nat (S k)))
             with (b + (off + 1000 + 1000 * Z.of_nat k)) by lia.
           apply Hbelow. lia.
  - exists O. split; [lia|split].
    + now replace (b + (off + 1000 * Z.of_nat 0)) with (b + off) by lia.
    + intros k Hk. lia.
Qed.

Lemma bump_from_zero seen b :
  exists n : nat,
    bump (S (List.length seen)) seen b 0 = 1000 * Z.of_nat n
    /\ seen_mem (b + 1000 * Z.of_nat n) seen = false
    /\ forall k : nat, (k < n)%nat -> In (b + 1000 * Z.of_nat k) seen.
Proof.
  destruct (bump_spec (S (List.length seen)) seen b 0) as (n & Hn & Hfree & Hbelow).
  - pose proof (filter_length_le (fun x => b + 0 <=? x) seen). lia.
  - exists n. split; [lia|split]; [exact Hfree|exact Hbelow].
Qed.

Lemma stamp_parse event b :
  stamp tz event = Some b ->
  exists w ts,
    parse_timestamp tz (get_nested_value event ["timestamp"] VNone) = (w, Some ts)
    /\ timestamp_of tz ts = b.
Proof.
  unfold stamp.
  destruct (parse_timestamp tz _) as [w [ts|]]; simpl; [|discriminate].
  inversion 1. now exists w, ts.
Qed.

Lemma stamp_none event :
  stamp tz event = None ->
  exists w, parse_timestamp tz (get_nested_value event ["timestamp"] VNone) = (w, None).
Proof.
  unfold stamp.
  destruct (parse_timestamp tz _) as [w [ts|]]; simpl; [discriminate|].
  intros _. now exists w.
Qed.

Lemma slot_of_grows seen t x : slot_of tz seen x -> slot_of tz (t :: seen) x.
Proof.
  intros (Hn & b & n & Hs & Ht & Hb). split; [assumption|].
  exists b, n. repeat split; try assumption.
  intros k Hk. right. now apply Hb.
Qed.

Lemma collect_invariant evs : collect_inv tz evs (collect tz evs).
Proof.
  unfold collect.
  induction evs as [|event evs IH] using rev_ind.
  - simpl. repeat split; try tauto; try constructor.
    intros i j x y b _ H. destruct i; discriminate.
  - rewrite fold_left_app. cbn [fold_left].
    destruct (fold_left (collect_step tz) evs ([], ([], []))) as [log [seen collected]].
    destruct IH as (Hseen & Hslots & Hmap & Hord & Hnd).
    unfold collect_step, collect_inv.
    rewrite filter_app. cbn [filter]. unfold has_stamp at 2.
    destruct (stamp tz event) as [b|] eqn:Es.
    + destruct (stamp_parse _ _ Es) as (w & ts & Hp & Hb). rewrite Hp, Hb.
      destruct (bump_from_zero seen b) as (n & Hn & Hfree & Hbelow).
      rewrite Hn, timestamp_of_fromtimestamp.
      assert (Hnew : slot_of tz seen (fromtimestamp tz (b + 1000 * Z.of_nat n), event)).
      { split; [reflexivity|]. exists b, n. simpl.
        rewrite timestamp_of_fromtimestamp. auto. }
      split; [|split; [|split; [|split]]].
      * intros t. rewrite map_app, in_app_iff. simpl.
        rewrite timestamp_of_fromtimestamp, Hseen. tauto.
      * apply Forall_app. split.
        -- eapply Forall_impl; [|exact Hslots]. intros x. apply slot_of_grows.
        -- constructor; [|constructor]. now apply slot_of_grows.
      * rewrite map_app, Hmap. reflexivity.
      * intros i j x y b' Hij Hi Hj Hx Hy.
        destruct (Nat.lt_ge_cases j (List.length collected)) as [Hlt|Hge].
        -- rewrite nth_error_app1 in Hi, Hj by lia. eauto.
        -- rewrite nth_error_app2 in Hj by lia.
           destruct (j - List.length collected)%nat as [|d] eqn:Ej;
             [|destruct d; discriminate].
           assert (Hi' : (i < List.length collected)%nat) by lia.
           rewrite nth_error_app1 in Hi by lia.
           cbn [nth_error] in Hj.
           assert (Ey : y = (fromtimestamp tz (b + 1000 * Z.of_nat n), event)) by congruence.
           subst y. cbn [fst snd] in Hy |- *.
           assert (b' = b) by congruence. subst b'.
           rewrite timestamp_of_fromtimestamp.
           rewrite Forall_forall in Hslots.
           destruct (Hslots x (nth_error_In _ _ Hi)) as (_ & bx & nx & Hsx & Htx & Hbx).
           assert (bx = b) by congruence. subst bx. rewrite Htx.
           assert (Hin : In (b + 1000 * Z.of_nat nx) seen).
           { apply Hseen. rewrite <- Htx. apply in_map_iff. exists x.
             split; [reflexivity|eapply nth_error_In; eassumption]. }
           destruct (Nat.lt_ge_cases nx n) as [?|Hle]; [lia|exfalso].
           assert (Hn_in : In (b + 1000 * Z.of_nat n) seen).
           { destruct (Nat.eq_dec n nx) as [->|Hne]; [assumption|].
             apply Hbx. lia. }
           apply seen_mem_In in Hn_in. congruence.
      * rewrite map_app. cbn [map fst]. rewrite timestamp_of_fromtimestamp.
        apply (Permutation_NoDup (Permutation_cons_append _ _)).
        constructor; [|assumption].
        rewrite <- Hseen, <- seen_mem_In. congruence.
    + destruct (stamp_none _ Es) as (w & Hp). rewrite Hp.
      rewrite app_nil_r. repeat split; try assumption; apply Hseen.
Qed.

Lemma insert_event_perm x l : Permutation (insert_event x l) (x :: l).
Proof.
  induction l as [|y l IH]; simpl; [reflexivity|].
  destruct (wall (fst x) <=? wall (fst y)); [reflexivity|].
  rewrite IH. apply perm_swap.
Qed.

Lemma sort_events_perm l : Permutation (sort_events l) l.
Proof.
  induction l as [|x l IH]; simpl; [reflexivity|].
  rewrite insert_event_perm. now apply perm_skip.
Qed.






End Timeline.

(** ** The accumulator and the summarizer *)

Section Properties.

Variable tz : Z.
Variable repr : value -> string.

(** *** The facility transit accumulator *)

Lemma hours_of_add a b : (hours_of (a + b) == hours_of a + hours_of b)%Q.
Proof. unfold hours_of, Qeq. simpl. lia. Qed.

Lemma hours_of_zero : (hours_of 0 == 0)%Q.
Proof. reflexivity. Qed.

Lemma hours_positive us : negb (Qle_bool (hours_of us) 0) = (0 <? us).
Proof.
  unfold Qle_bool, hours_of. simpl.
  destruct (0 <? us) eqn:E.
  - apply Z.ltb_lt in E. apply negb_true_iff, Z.leb_gt. lia.
  - apply Z.ltb_ge in E. apply negb_false_iff, Z.leb_le. lia.
Qed.


Lemma facility_flag_text event :
  text_location event = true ->
  facility_flag (arrival_location event) = Ok (facility_arrival event).
Proof.
  unfold text_location, facility_flag, facility_arrival.
  destruct (arrival_location event) as [|b|n|x|s|items|entries]; intros H;
    try (cbn [is_str orb] in H; apply negb_true_iff in H; rewrite H; reflexivity).
  cbn [truthy]. now destruct (String.eqb s "").
Qed.

Lemma pair_step_spec total current next :
  timeline_entry_ok current -> timeline_entry_ok next ->
  exists q, pair_step repr total current next = Ok q
            /\ (q == total + hours_of (pair_credit repr current next))%Q.
Proof.
  intros [Hc Hct] [Hn Hnt]. unfold pair_step, pair_credit.
  rewrite (facility_flag_text _ Hct), (facility_flag_text _ Hnt). cbn [bind_outcome].
  destruct (facility_arrival (snd current) && facility_arrival (snd next)
            && negb (String.eqb (facility_key repr (snd current))
                                (facility_key repr (snd next)))) eqn:E.
  - unfold dt_sub. rewrite Hc, Hn. cbn [bind_outcome andb].
    rewrite hours_positive.
    destruct (0 <? wall (fst next) - wall (fst current)).
    + eexists; split; reflexivity.
    + eexists; split; [reflexivity|]. rewrite hours_of_zero. ring.
  - cbn [andb]. eexists; split; [reflexivity|]. rewrite hours_of_zero. ring.
Qed.

Lemma pair_credit_nonneg current next : 0 <= pair_credit repr current next.
Proof.
  unfold pair_credit.
  match goal with |- 0 <= (if ?c then _ else _) => destruct c eqn:E end; [|lia].
  apply andb_true_iff in E. destruct E as [_ E]. apply Z.ltb_lt in E. lia.
Qed.

Lemma inter_facility_us_nonneg timeline : 0 <= inter_facility_us repr timeline.
Proof.
  induction timeline as [|x l IH]; [cbn; lia|].
  destruct l as [|y l]; [cbn; lia|].
  change (inter_facility_us repr (x :: y :: l))
    with (pair_credit repr x y + inter_facility_us repr (y :: l)).
  pose proof (pair_credit_nonneg x y). lia.
Qed.

Lemma accumulate_spec timeline total :
  Forall timeline_entry_ok timeline ->
  exists q, accumulate repr total timeline = Ok q
            /\ (q == total + hours_of (inter_facility_us repr timeline))%Q.
Proof.
  revert total; induction timeline as [|x l IH]; intros total Hok.
  - exists total. split; [reflexivity|]. cbn. rewrite hours_of_zero. ring.
  - destruct l as [|y l].
    + exists total. split; [reflexivity|]. cbn. rewrite hours_of_zero. ring.
    + inversion Hok as [|? ? Hx Hrest]; subst.
      inversion Hrest as [|? ? Hy _]; subst.
      destruct (pair_step_spec total x y Hx Hy) as (q1 & Hq1 & Eq1).
      destruct (IH q1 Hrest) as (q & Hq & Eq).
      exists q.
      change (accumulate repr total (x :: y :: l))
        with (bind_outcome (pair_step repr total x y)
                (fun t => accumulate repr t (y :: l))).
      rewrite Hq1. cbn [bind_outcome]. split; [exact Hq|].
      change (inter_facility_us repr (x :: y :: l))
        with (pair_credit repr x y + inter_facility_us repr (y :: l)).
      rewrite Eq, Eq1, hours_of_add. ring.
Qed.

Lemma timeline_entries_ok evs :
  Forall (fun e => text_location e = true) evs ->
  Forall timeline_entry_ok (snd (build_timeline tz evs)).
Proof.
  intros Hev.
  pose proof (collect_invariant tz evs) as Hinv. unfold build_timeline.
  destruct (collect tz evs) as [log [seen collected]]. cbn [snd].
  destruct Hinv as (_ & Hslots & Hmap & _).
  apply (Permutation_Forall (Permutation_sym (sort_events_perm collected))).
  rewrite Forall_forall in *. intros x Hx. split.
  - now destruct (Hslots x Hx).
  - apply Hev. apply (in_map snd) in Hx. rewrite Hmap in Hx.
    now apply filter_In in Hx.
Qed.

Lemma calculate_on_list evs :
  calculate_facility_transit_time tz repr (VList evs) =
  if (List.length evs <? 2)%nat then ([], Ok 0%Q)
  else (fst (build_timeline tz evs), accumulate repr 0 (snd (build_timeline tz evs))).
Proof.
  destruct evs as [|a [|b l]]; try reflexivity.
  unfold calculate_facility_transit_time.
  cbn [truthy negb py_len lift bind List.length].
  replace (Z.of_nat (S (S (List.length l))) <? 2) with false
    by (symmetry; apply Z.ltb_ge; lia).
  cbn [py_iter Nat.ltb Nat.leb app].
  now destruct (build_timeline tz (a :: b :: l)).
Qed.

Lemma timeline_length evs :
  (List.length (snd (build_timeline tz evs)) <= List.length evs)%nat.
Proof.
  pose proof (collect_invariant tz evs) as Hinv. unfold build_timeline.
  destruct (collect tz evs) as [log [seen collected]]. cbn [snd].
  destruct Hinv as (_ & _ & Hmap & _).
  rewrite (Permutation_length (sort_events_perm collected)).
  rewrite <- (length_map snd), Hmap. apply filter_length_le.
Qed.

Lemma inter_facility_us_short timeline :
  (List.length timeline < 2)%nat -> inter_facility_us repr timeline = 0.
Proof. destruct timeline as [|x [|y l]]; simpl; intros; try reflexivity; lia. Qed.

Lemma collect_step_fresh log seen collected event t :
  stamp tz event = Some t ->
  seen_mem t seen = false ->
  exists w, collect_step tz (log, (seen, collected)) event
            = (log ++ w, (t :: seen, collected ++ [(fromtimestamp tz t, event)])).
Proof.
  intros Hs Hfree. destruct (stamp_parse _ _ _ Hs) as (w & ts & Hp & Ht).
  exists w. unfold collect_step. rewrite Hp, Ht. cbn [bump].
  rewrite Z.add_0_r, Hfree, Z.add_0_r, timestamp_of_fromtimestamp. reflexivity.
Qed.

Lemma wall_fromtimestamp t : wall (fromtimestamp tz t) = t + tz * 1000000.
Proof. reflexivity. Qed.


Lemma facility_arrival_text event :
  facility_arrival event = true -> text_location event = true.
Proof.
  unfold facility_arrival, text_location.
  destruct (arrival_location event); try discriminate. reflexivity.
Qed.

(** On text locations the accumulator returns, and what it returns is the sum
    over the consecutive pairs of the timeline. *)
Lemma calculate_returns_sum evs :
  Forall (fun e => text_location e = true) evs ->
  exists q,
    snd (calculate_facility_transit_time tz repr (VList evs)) = Ok q
    /\ (q == hours_of (inter_facility_us repr (snd (build_timeline tz evs))))%Q.
Proof.
  intros Hev. rewrite calculate_on_list.
  destruct (List.length evs <? 2)%nat eqn:E.
  - apply Nat.ltb_lt in E. exists 0%Q. split; [reflexivity|].
    rewrite inter_facility_us_short; [reflexivity|].
    pose proof (timeline_length evs). lia.
  - cbn [snd].
    destruct (accumulate_spec _ 0%Q (timeline_entries_ok evs Hev)) as (q & Hq & Eq).
    exists q. split; [assumption|]. rewrite Eq. ring.
Qed.





(** *** The shipment summarizer *)

Lemma bind_ok_inv {A B} (m : M A) (k : A -> M B) w b :
  bind m k = (w, Ok b) ->
  exists w1 a w2, m = (w1, Ok a) /\ k a = (w2, Ok b) /\ w = w1 ++ w2.
Proof.
  unfold bind. destruct m as [w1 [a|e]]; [|discriminate].
  destruct (k a) as [w2 r] eqn:E. intros H.
  exists w1, a, w2. repeat split; congruence.
Qed.

Lemma lift_ok_inv {A} (o : outcome A) w a : lift o = (w, Ok a) -> o = Ok a.
Proof. unfold lift. congruence. Qed.

Ltac bind_inv H :=
  let w1 := fresh "w" in
  let a := fresh "a" in
  let w2 := fresh "w" in
  let E := fresh "E" in
  let L := fresh "L" in
  cbv zeta in H; apply bind_ok_inv in H; destruct H as (w1 & a & w2 & E & H & L).

Lemma fold_count (f : value -> bool) evs c :
  fold_left (fun count event => if f event then count + 1 else count) evs c
  = c + Z.of_nat (List.length (filter f evs)).
Proof.
  revert c; induction evs as [|e evs IH]; intros c; cbn [fold_left filter].
  - cbn. lia.
  - rewrite IH. destruct (f e); cbn [List.length]; lia.
Qed.




Lemma truthy_dict entries : entries <> [] -> truthy (VDict entries) = true.
Proof. destruct entries; [contradiction|reflexivity]. Qed.

Lemma milestone_time_none shipment kind :
  get_nested_value shipment ["datesOrTimes"] (VList []) = VList [] ->
  milestone_time tz shipment kind = ([], Ok None).
Proof. unfold milestone_time. intros ->. reflexivity. Qed.

(** C7, as the code has it.  For a shipment record whose events list is
    empty, every output record has facility count, in-transit count, attempt
    count, total event count and inter-facility transit time equal to 0 and
    no average hours per facility; when the record has no [datesOrTimes]
    milestones either, it is processed without a warning and the pickup
    instant, the delivery instant and the total transit duration are absent
    too. *)
Theorem empty_events_metrics (entries : list (string * value)) :
  entries <> [] ->
  get_nested_value (VDict entries) ["events"] (VList []) = VList [] ->
  (forall w r,
      process_shipment tz repr (VDict entries) = (w, Ok (Some r)) ->
      num_facilities_visited r = 0
      /\ num_in_transit_events r = 0
      /\ num_out_for_delivery_attempts r = 0
      /\ total_events_count r = 0
      /\ time_in_inter_facility_transit_hours r = 0%Q
      /\ avg_hours_per_facility r = None)
  /\ (get_nested_value (VDict entries) ["datesOrTimes"] (VList []) = VList [] ->
      exists r,
        process_shipment tz repr (VDict entries) = ([], Ok (Some r))
        /\ pickup_datetime_ist r = None
        /\ delivery_datetime_ist r = None
        /\ total_transit_hours r = None
        /\ avg_hours_per_facility r = None).
Proof.
  intros Hne Hev. pose proof (truthy_dict _ Hne) as Ht. split.
  - intros w r H. unfold process_shipment in H.
    rewrite Ht, Hev in H. cbn [negb orb is_dict] in H.
    destruct (extract_address _) as [[o_city o_state] o_pin].
    destruct (extract_address _) as [[d_city d_state] d_pin].
    do 12 bind_inv H.
    unfold ret in H. apply (f_equal snd) in H. cbn [snd] in H.
    injection H as H. subst r.
    cbn [num_facilities_visited num_in_transit_events num_out_for_delivery_attempts
         total_events_count time_in_inter_facility_transit_hours avg_hours_per_facility].
    repeat match goal with
           | E : lift _ = _ |- _ => apply lift_ok_inv in E; cbn in E
           | E : calculate_facility_transit_time _ _ (VList []) = _ |- _ => cbn in E
           | E : (if truthy (VList []) then _ else _) = _ |- _ => cbn in E
           end.
    repeat match goal with
           | E : ret _ = (_, Ok ?x) |- _ => is_var x; unfold ret in E
           end.
    repeat match goal with
           | E : Ok _ = Ok ?x |- _ => is_var x; injection E as E; subst x
           | E : (_, Ok _) = (_, Ok ?x) |- _ =>
               is_var x; apply (f_equal snd) in E; cbn [snd] in E
           end.
    repeat split; try congruence.
    match goal with |- match ?t with _ => _ end = None => destruct t end;
      [|reflexivity].
    now rewrite andb_false_r.
  - intros Hd. unfold process_shipment.
    rewrite Ht, Hev. cbn [negb orb is_dict].
    destruct (extract_address _) as [[o_city o_state] o_pin].
    destruct (extract_address _) as [[d_city d_state] d_pin].
    cbn [find_pickup_event find_delivery_event truthy negb lift bind event_time ret app].
    rewrite !(milestone_time_none _ _ Hd).
    eexists. split; [reflexivity|]. cbn. auto.
Qed.

(** *** What processing one record prints *)

Lemma quiet_ret {A} (a : A) : no_shipment_warning (fst (ret a)).
Proof. constructor. Qed.

Lemma quiet_lift {A} (o : outcome A) : no_shipment_warning (fst (lift o)).
Proof. constructor. Qed.

Lemma quiet_bind {A B} (m : M A) (k : A -> M B) :
  no_shipment_warning (fst m) ->
  (forall a, no_shipment_warning (fst (k a))) ->
  no_shipment_warning (fst (bind m k)).
Proof.
  unfold bind. destruct m as [w [a|e]]; cbn [fst]; intros Hm Hk; [|assumption].
  specialize (Hk a). destruct (k a) as [w' r]. cbn [fst] in *.
  apply Forall_app. now split.
Qed.

Lemma quiet_parse v : no_shipment_warning (fst (parse_timestamp tz v)).
Proof.
  unfold parse_timestamp.
  destruct v; try constructor;
    destruct (parse_attempt tz _); repeat constructor.
Qed.

Lemma quiet_parse_m v : no_shipment_warning (fst (parse_timestamp_m tz v)).
Proof.
  unfold parse_timestamp_m. pose proof (quiet_parse v) as H.
  now destruct (parse_timestamp tz v).
Qed.

Lemma quiet_collect evs : no_shipment_warning (fst (collect tz evs)).
Proof.
  unfold collect. induction evs as [|e evs IH] using rev_ind; [constructor|].
  rewrite fold_left_app. cbn [fold_left].
  destruct (fold_left (collect_step tz) evs ([], ([], []))) as [log [seen collected]].
  unfold collect_step. pose proof (quiet_parse (get_nested_value e ["timestamp"] VNone)) as Hp.
  destruct (parse_timestamp tz _) as [w [ts|]]; cbn [fst] in *;
    apply Forall_app; now split.
Qed.

Lemma quiet_calculate events :
  no_shipment_warning (fst (calculate_facility_transit_time tz repr events)).
Proof.
  unfold calculate_facility_transit_time.
  destruct (negb (truthy events)); [apply quiet_ret|].
  apply quiet_bind; [apply quiet_lift|]. intros n.
  destruct (n <? 2); [apply quiet_ret|].
  apply quiet_bind; [apply quiet_lift|]. intros evs.
  pose proof (quiet_collect evs) as H. unfold build_timeline.
  now destruct (collect tz evs) as [log [seen collected]].
Qed.

Lemma quiet_event_time found : no_shipment_warning (fst (event_time tz found)).
Proof.
  unfold event_time. destruct found as [event|]; [|apply quiet_ret].
  destruct (truthy event); [apply quiet_parse_m|apply quiet_ret].
Qed.

Lemma quiet_milestone shipment kind :
  no_shipment_warning (fst (milestone_time tz shipment kind)).
Proof.
  unfold milestone_time. apply quiet_bind; [apply quiet_lift|]. intros l.
  destruct (find _ l); [apply quiet_parse_m|apply quiet_ret].
Qed.

(** Processing a record prints timestamp warnings only. *)
Lemma quiet_process shipment :
  no_shipment_warning (fst (process_shipment tz repr shipment)).
Proof.
  unfold process_shipment.
  destruct (negb (truthy shipment) || negb (is_dict shipment)); [apply quiet_ret|].
  destruct (extract_address _) as [[o_city o_state] o_pin].
  destruct (extract_address _) as [[d_city d_state] d_pin].
  repeat first
    [ apply quiet_ret | apply quiet_lift | apply quiet_event_time
    | apply quiet_milestone | apply quiet_calculate
    | apply quiet_bind; [|intros ?]
    | match goal with
      | |- no_shipment_warning (fst (match ?x with _ => _ end)) => destruct x
      | |- no_shipment_warning (fst (if ?x then _ else _)) => destruct x
      end ].
Qed.

(** *** The loop over the shipment records *)

Lemma process_malformed shipment :
  malformed shipment -> process_shipment tz repr shipment = ([], Ok None).
Proof.
  unfold malformed, process_shipment. intros ->.
  now rewrite orb_true_r.
Qed.

(** Records that are all processed add one output record each and nothing
    but what their own processing printed. *)
Lemma batch_of_processed shipment_records :
  Forall (processed tz repr) shipment_records ->
  exists printed results,
    List.length results = List.length shipment_records
    /\ no_shipment_warning printed
    /\ forall idx log out,
         fold_left (batch_step tz repr) shipment_records (idx, log, out)
         = ((idx + List.length shipment_records)%nat, log ++ printed, out ++ results).
Proof.
  induction 1 as [|s l (w & r & Hs) _ (printed & results & Hlen & Hq & IH)].
  - exists [], []. split; [reflexivity|split; [constructor|]].
    intros idx log out. cbn. now rewrite Nat.add_0_r, !app_nil_r.
  - exists (w ++ printed), (r :: results). split; [cbn; lia|split].
    { apply Forall_app. split; [|assumption].
      pose proof (quiet_process s) as Hs'. now rewrite Hs in Hs'. }
    intros idx log out. cbn [fold_left]. unfold batch_step at 2. rewrite Hs, IH.
    cbn [List.length]. rewrite <- !app_assoc. cbn [app].
    f_equal. f_equal. lia.
Qed.

(** C6, as the code has it.  A batch in which one record is absent or not a
    mapping and every other record is processed is handled to the end: it
    yields one output record for each of the other records, N - 1 in all,
    the same records and the same printed warnings as the batch without the
    malformed record.  Nothing is printed for the malformed record, and the
    log holds no "Failed to process shipment" warning. *)
Theorem malformed_record_is_skipped_silently (before after : list value) (bad : value) :
  malformed bad ->
  Forall (processed tz repr) (before ++ after) ->
  process_records tz repr (before ++ bad :: after)
  = process_records tz repr (before ++ after)
  /\ List.length (snd (process_records tz repr (before ++ bad :: after)))
     = (List.length (before ++ bad :: after) - 1)%nat
  /\ process_shipment tz repr bad = ([], Ok None)
  /\ no_shipment_warning (fst (process_records tz repr (before ++ bad :: after))).
Proof.
  intros Hbad Hall. pose proof (process_malformed _ Hbad) as Hb.
  apply Forall_app in Hall. destruct Hall as [Hbefore Hafter].
  destruct (batch_of_processed _ Hbefore) as (p1 & r1 & Hl1 & Hq1 & H1).
  destruct (batch_of_processed _ Hafter) as (p2 & r2 & Hl2 & Hq2 & H2).
  assert (Hwith : process_records tz repr (before ++ bad :: after)
                  = (([] ++ p1) ++ p2, ([] ++ r1) ++ r2)).
  { unfold process_records. rewrite fold_left_app, H1. cbn [fold_left].
    unfold batch_step at 2. rewrite Hb, H2. now rewrite app_nil_r. }
  assert (Hwithout : process_records tz repr (before ++ after)
                     = (([] ++ p1) ++ p2, ([] ++ r1) ++ r2)).
  { unfold process_records. now rewrite fold_left_app, H1, H2. }
  split; [congruence|split; [|split; [exact Hb|]]].
  - rewrite Hwith. cbn [snd app]. rewrite !length_app. cbn [List.length]. lia.
  - rewrite Hwith. cbn [fst app]. apply Forall_app. now split.
Qed.

(** *** FacilityKeys that coincide *)

Lemma timeline_of_two a b t1 t2 :
  stamp tz a = Some t1 -> stamp tz b = Some t2 -> t1 < t2 ->
  snd (build_timeline tz [a; b])
  = [(fromtimestamp tz t1, a); (fromtimestamp tz t2, b)].
Proof.
  intros Ha Hb Hlt. unfold build_timeline, collect. cbn [fold_left].
  destruct (collect_step_fresh [] [] [] a t1 Ha eq_refl) as (w1 & ->).
  destruct (collect_step_fresh ([] ++ w1) [t1] ([] ++ [(fromtimestamp tz t1, a)]) b t2 Hb)
    as (w2 & ->).
  { unfold seen_mem. cbn [existsb].
    replace (t2 =? t1) with false by (symmetry; apply Z.eqb_neq; lia). reflexivity. }
  cbn [snd app sort_events fold_right insert_event fst].
  rewrite !wall_fromtimestamp.
  replace (t1 + tz * 1000000 <=? t2 + tz * 1000000) with true
    by (symmetry; apply Z.leb_le; lia).
  reflexivity.
Qed.

(** C10.  Two facility arrivals exist whose locations differ and whose
    cities differ while their FacilityKeys are the same text; they count as
    one facility, and the two hours between them add nothing to the
    inter-facility transit time, although an arrival two hours after the
    first at a facility with another key adds those two hours. *)
Theorem facility_key_not_injective :
  exists e1 e2 e3,
    arrival_location e1 <> arrival_location e2
    /\ get_nested_value e1 ["address"; "city"] VNone
       <> get_nested_value e2 ["address"; "city"] VNone
    /\ facility_arrival e1 = true /\ facility_arrival e2 = true
    /\ facility_key repr e1 = facility_key repr e2
    /\ count_unique_facilities repr (VList [e1; e2]) = Ok 1
    /\ (exists t1 t2,
          stamp tz e1 = Some t1 /\ stamp tz e2 = Some t2 /\ t2 - t1 = 7200000000)
    /\ snd (calculate_facility_transit_time tz repr (VList [e1; e2])) = Ok 0%Q
    /\ stamp tz e3 = stamp tz e2
    /\ facility_arrival e3 = true
    /\ exists q,
         snd (calculate_facility_transit_time tz repr (VList [e1; e3])) = Ok q
         /\ (q == 2)%Q.
Proof.
  exists Samples.arrival_a, Samples.arrival_b, Samples.arrival_c.
  assert (Ha : stamp tz Samples.arrival_a = Some (1709287200000000 - tz * 1000000))
    by reflexivity.
  assert (Hb : stamp tz Samples.arrival_b = Some (1709294400000000 - tz * 1000000))
    by reflexivity.
  assert (Hc : stamp tz Samples.arrival_c = Some (1709294400000000 - tz * 1000000))
    by reflexivity.
  split; [discriminate|split; [discriminate|]].
  split; [reflexivity|split; [reflexivity|split; [reflexivity|split; [reflexivity|]]]].
  split; [do 2 eexists; split; [exact Ha|split; [exact Hb|lia]]|].
  split.
  { rewrite calculate_on_list. cbn [List.length Nat.ltb Nat.leb snd].
    rewrite (timeline_of_two _ _ _ _ Ha Hb) by lia. reflexivity. }
  split; [now rewrite Hb, Hc|split; [reflexivity|]].
  destruct (calculate_returns_sum [Samples.arrival_a; Samples.arrival_c])
    as (q & Hq & Eq).
  { repeat constructor. }
  exists q. split; [exact Hq|].
  rewrite Eq, (timeline_of_two _ _ _ _ Ha Hc) by lia.
  cbn [inter_facility_us]. unfold pair_credit. cbn [fst snd].
  rewrite !wall_fromtimestamp.
  replace (1709294400000000 - tz * 1000000 + tz * 1000000
           - (1709287200000000 - tz * 1000000 + tz * 1000000))
    with 7200000000 by lia.
  reflexivity.
Qed.

End Properties.

(** ** The properties on sample records, host zone IST *)

(** C8 on three small records: a value found, a null leaf, a number met
    where a mapping was expected. *)
Lemma get_nested_value_contract_witness :
  get_nested_value (VDict [("service", VDict [("type", VStr "EXPRESS")])])
                   ["service"; "type"] VNone = VStr "EXPRESS"
  /\ get_nested_value (VDict [("service", VNone)]) ["service"] (VStr "") = VStr ""
  /\ get_nested_value (VDict [("service", VInt 3)]) ["service"; "type"] VNone = VNone.
Proof.
  split; [|split].
  - apply (proj1 (get_nested_value_contract _ _ _)); [|discriminate].
    eapply at_path_step; [reflexivity|].
    eapply at_path_step; [reflexivity|]. apply at_path_here.
  - apply (proj1 (proj2 (get_nested_value_contract _ _ _))).
    eapply at_path_step; [reflexivity|]. apply at_path_here.
  - apply (proj1 (proj2 (proj2 (get_nested_value_contract _ _ _)))).
    eapply blocked_step; [reflexivity|]. now apply blocked_not_mapping.
Defined.






(** C4.  The code at a shipment picked up and delivered at the same instant
    after one facility: the total transit duration is known (zero) and the
    facility count is 1, yet [avg_hours_per_facility] is absent. *)
Theorem zero_transit_duration_leaves_average_absent :
  exists r t,
    process_shipment ist repr_blank Samples.shipment_zero_transit = ([], Ok (Some r))
    /\ total_transit_hours r = Some t
    /\ (t == 0)%Q
    /\ num_facilities_visited r = 1
    /\ avg_hours_per_facility r = None.
Proof.
  do 2 eexists. split; [vm_compute; reflexivity|].
  repeat split.
Qed.


(** C6 fails as stated.  A batch of two records, the first of them null: one output record, and
    nothing at all is printed. *)
Lemma null_record_prints_no_warning :
  fst (process_records ist repr_blank [VNone; Samples.shipment_bare]) = []
  /\ List.length (snd (process_records ist repr_blank [VNone; Samples.shipment_bare]))
     = 1%nat.
Proof. split; vm_compute; reflexivity. Qed.

(** C6 on a batch of three records, the second a number. *)
Lemma malformed_record_is_skipped_silently_witness :
  process_records ist repr_blank [Samples.shipment_ok; VInt 7; Samples.shipment_bare]
  = process_records ist repr_blank [Samples.shipment_ok; Samples.shipment_bare]
  /\ List.length (snd (process_records ist repr_blank
                         [Samples.shipment_ok; VInt 7; Samples.shipment_bare]))
     = 2%nat.
Proof.
  destruct (malformed_record_is_skipped_silently ist repr_blank
              [Samples.shipment_ok] [Samples.shipment_bare] (VInt 7))
    as (Hsame & Hlen & _).
  - reflexivity.
  - repeat constructor; do 2 eexists; vm_compute; reflexivity.
  - split; [exact Hsame|exact Hlen].
Defined.

(** C7 fails as stated.  A record with no events and two milestones: the pickup instant, the
    delivery instant and the total transit duration are all present. *)
Lemma empty_events_with_milestones_have_times :
  get_nested_value Samples.shipment_milestones_only ["events"] (VList []) = VList []
  /\ exists r,
       process_shipment ist repr_blank Samples.shipment_milestones_only
       = ([], Ok (Some r))
       /\ pickup_datetime_ist r = Some 1709280000
       /\ delivery_datetime_ist r = Some 1709366400
       /\ total_transit_hours r = Some (hours_of 86400000000).
Proof.
  split; [reflexivity|].
  eexists. split; [vm_compute; reflexivity|]. repeat split.
Qed.

(** C7 on a record with no events and no milestones. *)
Lemma empty_events_metrics_witness :
  exists r,
    process_shipment ist repr_blank Samples.shipment_bare = ([], Ok (Some r))
    /\ pickup_datetime_ist r = None
    /\ delivery_datetime_ist r = None
    /\ total_transit_hours r = None
    /\ avg_hours_per_facility r = None.
Proof.
  apply (proj2 (empty_events_metrics ist repr_blank
                  [("trackingNumber", VStr "1004"); ("events", VList [])]
                  ltac:(discriminate) eq_refl)).
  reflexivity.
Defined.

(** * Further properties of the program *)

(** ** The field extractor, once more *)

(** X1.  Looking a path up in two steps, the first with an empty mapping as
    default, is looking up the joined path: the way the code reads
    [address.city] is the nested lookup. *)
Theorem get_nested_value_in_two_steps (data : value) (ks1 ks2 : list string) (default : value) :
  ks2 <> [] ->
  get_nested_value (get_nested_value data ks1 (VDict [])) ks2 default
  = get_nested_value data (ks1 ++ ks2) default.
Proof.
  intros Hne. revert data; induction ks1 as [|k ks1 IH]; intros data.
  - destruct ks2 as [|k2 ks2]; [contradiction|].
    cbn [app get_nested_value]. now destruct data.
  - cbn [app get_nested_value].
    assert (Hd : get_nested_value (VDict []) ks2 default = default).
    { destruct ks2 as [|k2 ks2]; [contradiction|]. reflexivity. }
    destruct data as [| | | | | |entries]; try exact Hd.
    destruct (dict_get k entries) as [v|]; [apply IH|exact Hd].
Qed.

(** X1 on an event that has no address: the city defaults to the empty
    text either way. *)
Lemma get_nested_value_in_two_steps_witness :
  get_nested_value (get_nested_value (VDict [("eventType", VStr "PU")]) ["address"] (VDict []))
                   ["city"] (VStr "")
  = get_nested_value (VDict [("eventType", VStr "PU")]) (["address"] ++ ["city"]) (VStr "").
Proof. apply get_nested_value_in_two_steps. discriminate. Defined.

(** X2.  With a default that is not null the result is never null: a null
    found in the data does not get through. *)
Theorem get_nested_value_never_null (data : value) (keys : list string) (default : value) :
  default <> VNone -> get_nested_value data keys default <> VNone.
Proof.
  intros Hd. revert data; induction keys as [|k keys IH]; intros data.
  - cbn. now destruct data.
  - cbn [get_nested_value]. destruct data as [| | | | | |entries]; try exact Hd.
    destruct (dict_get k entries) as [v|]; [apply IH|exact Hd].
Qed.

(** X2 on an event whose type is an explicit null. *)
Lemma get_nested_value_never_null_witness :
  get_nested_value (VDict [("eventType", VNone)]) ["eventType"] (VStr "") <> VNone.
Proof. apply get_nested_value_never_null. discriminate. Defined.

(** X3.  [extract_address] gives the three fields of the address by plain
    lookup, whatever the address is: its guard against an absent, empty or
    non-mapping address changes no result. *)
Theorem extract_address_is_field_lookup (address_data : value) :
  extract_address address_data
  = (get_nested_value address_data ["city"] VNone,
     get_nested_value address_data ["stateOrProvinceCode"] VNone,
     get_nested_value address_data ["postalCode"] VNone).
Proof.
  unfold extract_address.
  destruct address_data as [| | | | | |entries]; try reflexivity;
    try (now rewrite orb_true_r).
  destruct entries; reflexivity.
Qed.

(** ** The timestamp normalizer, once more *)

(** X4.  [parse_timestamp] prints nothing or one warning about the value it
    was given, and the result is absent whenever it prints.  Null, a list
    and a mapping without the key "$numberLong" are passed over in silence:
    the result is absent and nothing is printed. *)
Theorem parse_timestamp_warns_only_on_failure (tz : Z) (v : value) :
  (fst (parse_timestamp tz v) = []
   \/ parse_timestamp tz v = ([WarnTimestamp v], None))
  /\ (match v with
      | VNone | VList _ => True
      | VDict entries => dict_get "$numberLong" entries = None
      | _ => False
      end ->
      parse_timestamp tz v = ([], None)).
Proof.
  split.
  - unfold parse_timestamp.
    destruct v; try (left; reflexivity);
      (destruct (parse_attempt tz _); [left|right]; reflexivity).
  - unfold parse_timestamp, parse_attempt.
    destruct v as [| | | |s| |entries]; try reflexivity; try contradiction.
    intros ->. reflexivity.
Qed.

(** X4 on an event list given where a timestamp belongs. *)
Lemma parse_timestamp_warns_only_on_failure_witness :
  parse_timestamp ist (VList [VInt 1709287200000]) = ([], None).
Proof.
  apply (proj2 (parse_timestamp_warns_only_on_failure ist (VList [VInt 1709287200000]))).
  exact I.
Defined.



(** ** The event classifier *)

Lemma find_first {A} (f : A -> bool) (l : list A) :
  match find f l with
  | Some x => exists l1 l2, l = l1 ++ x :: l2 /\ f x = true
                            /\ Forall (fun y => f y = false) l1
  | None => Forall (fun y => f y = false) l
  end.
Proof.
  induction l as [|a l IH]; cbn [find]; [constructor|].
  destruct (f a) eqn:E.
  - exists [], l. repeat split; [assumption|constructor].
  - destruct (find f l) as [x|].
    + destruct IH as (l1 & l2 & -> & Hx & Hl1).
      exists (a :: l1), l2. repeat split; [assumption|now constructor].
    + now constructor.
Qed.

(** X6.  The pickup event and the delivery event are the first events, in
    the order of the input list, that pass the pickup test and the delivery
    test: every event before the one returned fails the test, and nothing
    is returned exactly when every event fails it. *)
Theorem pickup_and_delivery_are_first_matches (repr : value -> string) (evs : list value) :
  (exists found,
      find_pickup_event repr (VList evs) = Ok found
      /\ match found with
         | Some e => exists l1 l2, evs = l1 ++ e :: l2 /\ pickup_test repr e = true
                                   /\ Forall (fun y => pickup_test repr y = false) l1
         | None => Forall (fun y => pickup_test repr y = false) evs
         end)
  /\ (exists found,
        find_delivery_event repr (VList evs) = Ok found
        /\ match found with
           | Some e => exists l1 l2, evs = l1 ++ e :: l2 /\ delivery_test repr e = true
                                     /\ Forall (fun y => delivery_test repr y = false) l1
           | None => Forall (fun y => delivery_test repr y = false) evs
           end).
Proof.
  split.
  - exists (find (pickup_test repr) evs). split; [now destruct evs|apply find_first].
  - exists (find (delivery_test repr) evs). split; [now destruct evs|apply find_first].
Qed.

Lemma test_needs_mapping (repr : value -> string) (e : value) :
  truthy e && is_dict e = false ->
  event_type e = VStr "" /\ description_lower repr e = "".
Proof.
  destruct e as [| | | | | |[|kv entries]]; intros H; try discriminate H;
    split; reflexivity.
Qed.

(** X7.  Only a non-empty mapping passes the pickup, delivery, in-transit
    or delivery-attempt test, so the event found as pickup or delivery is
    never discarded by the test [if pickup_event:] and its timestamp is the
    one parsed. *)
Theorem classified_event_is_a_mapping (tz : Z) (repr : value -> string) (e : value) :
  pickup_test repr e = true \/ delivery_test repr e = true
  \/ attempt_test repr e = true \/ eq_str (event_type e) "IT" = true ->
  truthy e = true /\ is_dict e = true
  /\ event_time tz (Some e) = parse_timestamp_m tz (get_nested_value e ["timestamp"] VNone).
Proof.
  intros H.
  destruct (truthy e && is_dict e) eqn:E.
  - apply andb_true_iff in E. destruct E as [Ht Hd].
    repeat split; try assumption. unfold event_time. now rewrite Ht.
  - destruct (test_needs_mapping repr e E) as [Hty Hde].
    unfold pickup_test, delivery_test, attempt_test in H. rewrite Hty, Hde in H.
    cbn in H. intuition discriminate.
Qed.

(** X7 on a pickup event. *)
Lemma classified_event_is_a_mapping_witness :
  truthy (Samples.event "PU" "" "PUNE" "411001" "2024-03-01T08:00:00") = true
  /\ is_dict (Samples.event "PU" "" "PUNE" "411001" "2024-03-01T08:00:00") = true.
Proof.
  destruct (classified_event_is_a_mapping ist repr_blank
              (Samples.event "PU" "" "PUNE" "411001" "2024-03-01T08:00:00"))
    as (Ht & Hd & _); [left; reflexivity|].
  split; assumption.
Defined.

(** ** The counters *)

Section Counters.

Variable repr : value -> string.

Lemma facility_step_id set e :
  facility_step repr set e
  = match facility_id_of repr e with
    | Some id => set_add string_dec id set
    | None => set
    end.
Proof.
  unfold facility_step, facility_id_of.
  destruct (truthy _ && _); [|reflexivity].
  now destruct (negb _).
Qed.

Lemma facility_fold_spec evs acc :
  NoDup acc ->
  NoDup (fold_left (facility_step repr) evs acc)
  /\ (forall x, In x (fold_left (facility_step repr) evs acc)
                <-> In x acc \/ exists e, In e evs /\ facility_id_of repr e = Some x)
  /\ (List.length (fold_left (facility_step repr) evs acc)
      <= List.length acc + List.length evs)%nat.
Proof.
  revert acc; induction evs as [|e evs IH]; intros acc Hnd; cbn [fold_left].
  - split; [assumption|split; [|cbn; lia]].
    intros x. split; [tauto|]. intros [H|(e & [] & _)]. exact H.
  - rewrite facility_step_id.
    destruct (facility_id_of repr e) as [id|] eqn:E.
    + destruct (IH (set_add string_dec id acc)) as (Hn & Hin & Hlen).
      { now apply set_add_nodup. }
      split; [assumption|split].
      * intros x. rewrite Hin. split.
        -- intros [H|(e' & He' & Hid)].
           ++ apply set_add_elim in H. destruct H as [->|H]; [|now left].
              right. exists e. split; [now left|assumption].
           ++ right. exists e'. split; [now right|assumption].
        -- intros [H|(e' & [<-|He'] & Hid)].
           ++ left. now apply set_add_intro1.
           ++ left. apply set_add_intro2. congruence.
           ++ right. now exists e'.
      * assert (Hadd : (List.length (set_add string_dec id acc) <= S (List.length acc))%nat).
        { clear. induction acc as [|a acc IHa]; cbn; [lia|].
          destruct (string_dec id a); cbn; lia. }
        cbn [List.length]. lia.
    + destruct (IH acc Hnd) as (Hn & Hin & Hlen).
      split; [assumption|split].
      * intros x. rewrite Hin. split.
        -- intros [H|(e' & He' & Hid)]; [now left|].
           right. exists e'. split; [now right|assumption].
        -- intros [H|(e' & [<-|He'] & Hid)]; [now left|congruence|].
           right. now exists e'.
      * cbn [List.length]. lia.
Qed.

Lemma count_unique_facilities_ids (evs : list value) :
  exists ids,
    count_unique_facilities repr (VList evs) = Ok (Z.of_nat (List.length ids))
    /\ NoDup ids
    /\ (forall x, In x ids <-> exists e, In e evs /\ facility_id_of repr e = Some x)
    /\ (List.length ids <= List.length evs)%nat.
Proof.
  destruct (facility_fold_spec evs [] (NoDup_nil _)) as (Hn & Hin & Hlen).
  exists (fold_left (facility_step repr) evs []).
  split; [now destruct evs|split; [assumption|split; [|exact Hlen]]].
  intros x. rewrite Hin. cbn. tauto.
Qed.

(** X8.  [count_unique_facilities] on a list returns the number of distinct
    facility ids of its events: every id is counted once however many events
    carry it, the count is at most the number of events, and it is 0 exactly
    when no event has a facility id. *)
Theorem count_unique_facilities_counts_distinct_ids (evs : list value) :
  exists ids,
    count_unique_facilities repr (VList evs) = Ok (Z.of_nat (List.length ids))
    /\ NoDup ids
    /\ (forall x, In x ids <-> exists e, In e evs /\ facility_id_of repr e = Some x)
    /\ (List.length ids <= List.length evs)%nat
    /\ (List.length ids = 0%nat <-> forall e, In e evs -> facility_id_of repr e = None).
Proof.
  destruct (count_unique_facilities_ids evs) as (ids & Hc & Hn & Hin & Hlen).
  exists ids. repeat (split; [assumption|]).
  split.
  - intros H0 e He. destruct (facility_id_of repr e) as [x|] eqn:E; [|reflexivity].
    assert (Hx : In x ids) by (apply Hin; eauto).
    destruct ids; [contradiction|discriminate].
  - intros Hall. destruct ids as [|x l]; [reflexivity|].
    destruct (proj1 (Hin x) (or_introl eq_refl)) as (e & He & Hid).
    rewrite (Hall e He) in Hid. discriminate.
Qed.

(** X9.  The facility count depends only on which events occur: two lists
    with the same events, in any order and with any repetitions, have the
    same count. *)
Theorem count_unique_facilities_ignores_order_and_repeats (evs evs' : list value) :
  (forall e, In e evs <-> In e evs') ->
  count_unique_facilities repr (VList evs) = count_unique_facilities repr (VList evs').
Proof.
  intros Hsame.
  destruct (count_unique_facilities_ids evs) as (ids & -> & Hn & Hin & _).
  destruct (count_unique_facilities_ids evs') as (ids' & -> & Hn' & Hin' & _).
  do 2 f_equal. apply Permutation_length, NoDup_Permutation; try assumption.
  intros x. rewrite Hin, Hin'. split; intros (e & He & Hid); exists e;
    (split; [now apply Hsame|assumption]).
Qed.

(** X10.  [count_transit_events] on a list returns the number of events
    whose type code is exactly "IT"; it is at most the number of events and
    counts a list joined from two as the two counted apart. *)
Theorem count_transit_events_counts_it_events (evs evs' : list value) :
  let is_it := fun e => eq_str (event_type e) "IT" in
  count_transit_events (VList evs) = Ok (Z.of_nat (List.length (filter is_it evs)))
  /\ (List.length (filter is_it evs) <= List.length evs)%nat
  /\ count_transit_events (VList (evs ++ evs'))
     = Ok (Z.of_nat (List.length (filter is_it evs))
           + Z.of_nat (List.length (filter is_it evs'))).
Proof.
  intros is_it.
  assert (H : forall l, count_transit_events (VList l)
                        = Ok (Z.of_nat (List.length (filter is_it l)))).
  { intros l. unfold count_transit_events.
    destruct l as [|a l]; [reflexivity|].
    cbn [truthy negb py_iter bind_outcome]. now rewrite fold_count. }
  split; [apply H|split; [apply filter_length_le|]].
  rewrite H, filter_app, length_app. f_equal. lia.
Qed.

End Counters.

(** X9 on a list and the same list with its first event repeated at the
    end. *)
Lemma count_unique_facilities_ignores_order_and_repeats_witness :
  count_unique_facilities repr_blank (VList [Samples.visit_a1; Samples.visit_b])
  = count_unique_facilities repr_blank
      (VList [Samples.visit_b; Samples.visit_a1; Samples.visit_b]).
Proof.
  apply count_unique_facilities_ignores_order_and_repeats.
  intros e. cbn. tauto.
Defined.


(** ** The timeline builder: events without a time *)

Section TimelineMore.

Variable tz : Z.
Variable repr : value -> string.

Lemma collect_step_skip (log : list warning) (st : list Z * list (datetime * value))
      (event : value) :
  has_stamp tz event = false ->
  snd (collect_step tz (log, st) event) = st.
Proof.
  intros H. destruct st as [seen collected].
  unfold has_stamp, stamp in H. unfold collect_step.
  destruct (parse_timestamp tz (get_nested_value event ["timestamp"] VNone)) as [w [ts|]];
    cbn in *; [discriminate | reflexivity].
Qed.

Lemma collect_step_log (log log' : list warning) (st : list Z * list (datetime * value))
      (event : value) :
  snd (collect_step tz (log, st) event) = snd (collect_step tz (log', st) event).
Proof.
  destruct st as [seen collected]. unfold collect_step.
  destruct (parse_timestamp tz (get_nested_value event ["timestamp"] VNone)) as [w [ts|]];
    reflexivity.
Qed.

Lemma collect_fold_filter (evs : list value) :
  forall (log log' : list warning) (st : list Z * list (datetime * value)),
    snd (fold_left (collect_step tz) evs (log, st)) =
    snd (fold_left (collect_step tz) (filter (has_stamp tz) evs) (log', st)).
Proof.
  induction evs as [|e evs IH]; intros log log' st; [reflexivity|].
  cbn [fold_left filter].
  destruct (has_stamp tz e) eqn:E.
  - cbn [fold_left].
    pose proof (collect_step_log log log' st e) as H.
    destruct (collect_step tz (log, st) e) as [l1 s1].
    destruct (collect_step tz (log', st) e) as [l2 s2].
    cbn in H. subst s2. apply IH.
  - pose proof (collect_step_skip log st e E) as H.
    destruct (collect_step tz (log, st) e) as [l1 s1].
    cbn in H. subst s1. apply IH.
Qed.

Lemma timeline_of_filter (evs : list value) :
  snd (build_timeline tz evs) = snd (build_timeline tz (filter (has_stamp tz) evs)).
Proof.
  unfold build_timeline, collect.
  pose proof (collect_fold_filter evs [] [] ([], [])) as H.
  destruct (fold_left (collect_step tz) evs _) as [l1 [s1 c1]].
  destruct (fold_left (collect_step tz) (filter _ evs) _) as [l2 [s2 c2]].
  cbn in H. inversion H. reflexivity.
Qed.



End TimelineMore.

(** ** The timeline builder: how far an event is moved *)

Section Displacement.

Variable tz : Z.

Lemma stamped_app (evs evs' : list value) :
  stamped tz (evs ++ evs') = stamped tz evs ++ stamped tz evs'.
Proof. unfold stamped. apply flat_map_app. Qed.

Lemma collect_snoc (evs : list value) (e : value) :
  collect tz (evs ++ [e]) = collect_step tz (collect tz evs) e.
Proof. unfold collect. rewrite fold_left_app. reflexivity. Qed.

Lemma timeline_perm (evs : list value) :
  Permutation (snd (build_timeline tz evs)) (snd (snd (collect tz evs))).
Proof.
  unfold build_timeline.
  destruct (collect tz evs) as [log [seen collected]]. cbn.
  apply sort_events_perm.
Qed.

Lemma unmoved_collect (evs : list value) :
  NoDup (map fst (stamped tz evs)) ->
  (forall t, In t (fst (snd (collect tz evs))) -> In t (map fst (stamped tz evs)))
  /\ Forall (fun x => stamp tz (snd x) = Some (timestamp_of tz (fst x)))
            (snd (snd (collect tz evs))).
Proof.
  induction evs as [|e evs IH] using rev_ind; intros Hnd.
  - cbn. split; [tauto | constructor].
  - rewrite stamped_app, map_app in Hnd. rewrite collect_snoc, stamped_app, map_app.
    pose proof (NoDup_app_remove_r _ _ Hnd) as Hl.
    destruct (IH Hl) as [Hseen Hcol]. clear IH.
    destruct (collect tz evs) as [log [seen collected]]. cbn [fst snd] in *.
    destruct (stamp tz e) as [b|] eqn:Es.
    + assert (Hfresh : seen_mem b seen = false).
      { destruct (seen_mem b seen) eqn:E; [|reflexivity].
        apply seen_mem_In in E. apply Hseen in E.
        unfold stamped in Hnd at 2. cbn in Hnd. rewrite Es in Hnd. cbn in Hnd.
        apply NoDup_remove_2 in Hnd. rewrite app_nil_r in Hnd. contradiction. }
      destruct (collect_step_fresh tz log seen collected e b Es Hfresh) as [w Hw].
      rewrite Hw. cbn [fst snd]. split.
      * intros t [Ht|Ht]; apply in_or_app.
        -- right. unfold stamped. cbn. rewrite Es. cbn. auto.
        -- left. auto.
      * apply Forall_app. split; [exact Hcol|].
        constructor; [|constructor]. cbn [fst snd].
        rewrite timestamp_of_fromtimestamp. exact Es.
    + assert (Hs : has_stamp tz e = false) by (unfold has_stamp; rewrite Es; reflexivity).
      pose proof (collect_step_skip tz log (seen, collected) e Hs) as Hk.
      destruct (collect_step tz (log, (seen, collected)) e) as [log' st'].
      cbn in Hk. subst st'. cbn [fst snd]. split.
      * intros t Ht. apply in_or_app. left. auto.
      * exact Hcol.
Qed.

(** X12.  When no two events of the list normalize to the same time, the
    timeline holds every event at exactly the time its own timestamp
    normalizes to: the millisecond offsets change nothing. *)
Theorem distinct_timestamps_are_not_moved (evs : list value) :
  NoDup (map fst (stamped tz evs)) ->
  Forall (fun x => stamp tz (snd x) = Some (timestamp_of tz (fst x)))
         (snd (build_timeline tz evs)).
Proof.
  intros Hnd.
  destruct (unmoved_collect evs Hnd) as [_ H].
  rewrite Forall_forall in *. intros x Hx. apply H.
  eapply Permutation_in; [apply timeline_perm | exact Hx].
Qed.



End Displacement.

(** ** The accumulator: bounds and failures *)

Section Accumulator.

Variable tz : Z.
Variable repr : value -> string.



Lemma hours_of_le (a b : Z) : a <= b -> (hours_of a <= hours_of b)%Q.
Proof. intros H. unfold hours_of, Qle. cbn. lia. Qed.









Lemma chars_unstamped (s : string) : filter (has_stamp tz) (chars s) = [].
Proof. induction s as [|c s IH]; [reflexivity|]. cbn [chars filter]. exact IH. Qed.

Lemma keys_unstamped (entries : list (string * value)) :
  filter (has_stamp tz) (map (fun kv => VStr (fst kv)) entries) = [].
Proof. induction entries as [|kv l IH]; [reflexivity|]. cbn [map filter]. exact IH. Qed.

(** X16.  What the accumulator does with an [events] value that is not a
    list: nothing and text and mappings give 0 (their items are no events,
    so the timeline is empty), a number other than zero and the Boolean
    true have no length and raise a type error. *)
Theorem facility_transit_time_of_non_list (events : value) :
  match events with
  | VList _ => True
  | VNone | VStr _ | VDict _ =>
      snd (calculate_facility_transit_time tz repr events) = Ok 0%Q
  | VBool _ | VInt _ | VFloat _ =>
      calculate_facility_transit_time tz repr events =
      if truthy events then ([], Raise TypeError) else ([], Ok 0%Q)
  end.
Proof.
  destruct events as [|b|n|x|s|items|entries]; try exact I; try reflexivity.
  - destruct b; reflexivity.
  - unfold calculate_facility_transit_time. destruct (truthy (VInt n)); reflexivity.
  - unfold calculate_facility_transit_time. destruct (truthy (VFloat x)); reflexivity.
  - unfold calculate_facility_transit_time.
    destruct (truthy (VStr s)); [|reflexivity]. cbn [negb py_len py_iter lift bind].
    unfold bind, lift. cbn [py_len py_iter].
    destruct (Z.of_nat (String.length s) <? 2); [reflexivity|].
    cbn. pose proof (timeline_of_filter tz (chars s)) as H.
    rewrite chars_unstamped in H.
    destruct (build_timeline tz (chars s)) as [log tl]. cbn in H. subst tl. reflexivity.
  - unfold calculate_facility_transit_time.
    destruct (truthy (VDict entries)); [|reflexivity].
    unfold bind, lift. cbn [py_len py_iter negb].
    destruct (Z.of_nat (List.length entries) <? 2); [reflexivity|].
    cbn. pose proof (timeline_of_filter tz (map (fun kv => VStr (fst kv)) entries)) as H.
    rewrite keys_unstamped in H.
    destruct (build_timeline tz (map _ entries)) as [log tl]. cbn in H. subst tl. reflexivity.
Qed.

End Accumulator.

(** ** The output record *)

Section Summarizer.

Variable tz : Z.
Variable repr : value -> string.

Ltac unbind H a E :=
  let w1 := fresh "w" in
  let w2 := fresh "w" in
  let L := fresh "L" in
  cbv zeta in H; apply bind_ok_inv in H; destruct H as (w1 & a & w2 & E & H & L).

(** What an output record holds, read off the run that produced it. *)
Lemma process_shipment_record (shipment : value) (w : list warning) (r : metrics) :
  process_shipment tz repr shipment = (w, Ok (Some r)) ->
  let events := get_nested_value shipment ["events"] (VList []) in
  exists pickup_time delivery_time : option datetime,
    pickup_datetime_ist r = option_map strftime pickup_time
    /\ delivery_datetime_ist r = option_map strftime delivery_time
    /\ match pickup_time, delivery_time with
       | Some p, Some d => bind_outcome (dt_sub d p) (fun us => Ok (Some (hours_of us)))
       | _, _ => Ok None
       end = Ok (total_transit_hours r)
    /\ count_unique_facilities repr events = Ok (num_facilities_visited r)
    /\ count_transit_events events = Ok (num_in_transit_events r)
    /\ count_delivery_attempts repr events = Ok (num_out_for_delivery_attempts r)
    /\ (if truthy events then py_len events else Ok 0) = Ok (total_events_count r)
    /\ snd (calculate_facility_transit_time tz repr events)
       = Ok (time_in_inter_facility_transit_hours r)
    /\ avg_hours_per_facility r
       = match total_transit_hours r with
         | Some t =>
             if negb (Qeq_bool t 0) && (0 <? num_facilities_visited r)
             then Some (t / inject_Z (num_facilities_visited r))%Q
             else None
         | None => None
         end.
Proof.
  intros H events. unfold process_shipment in H.
  destruct (negb (truthy shipment) || negb (is_dict shipment)); [discriminate|].
  destruct (extract_address _) as [[o_city o_state] o_pin].
  destruct (extract_address _) as [[d_city d_state] d_pin].
  fold events in H.
  unbind H pickup_event Epe. unbind H delivery_event Ede.
  unbind H pickup_time0 Ep0. unbind H delivery_time0 Ed0.
  unbind H pickup_time Ep. unbind H delivery_time Ed.
  unbind H transit Et. unbind H facilities_count Ef.
  unbind H transit_events_count Ec. unbind H facility_transit_time Ei.
  unbind H delivery_attempts Ea. unbind H total_events En.
  unfold ret in H. inversion H as [[Hw Hr]]. clear H.
  exists pickup_time, delivery_time. subst r.
  cbn [pickup_datetime_ist delivery_datetime_ist total_transit_hours
       num_facilities_visited num_in_transit_events num_out_for_delivery_attempts
       total_events_count time_in_inter_facility_transit_hours
       avg_hours_per_facility].
  apply lift_ok_inv in Ef, Ec, Ea.
  rewrite Ei. cbn [snd].
  repeat split; try assumption; try reflexivity.
  - destruct pickup_time, delivery_time;
      first [ apply lift_ok_inv in Et; exact Et
            | unfold ret in Et; congruence ].
  - destruct (truthy events); [apply lift_ok_inv in En; exact En|].
    unfold ret in En. congruence.
Qed.

Lemma process_shipment_none (shipment : value) (w : list warning) :
  process_shipment tz repr shipment = (w, Ok None) ->
  w = [] /\ (negb (truthy shipment) || negb (is_dict shipment)) = true.
Proof.
  unfold process_shipment.
  destruct (negb (truthy shipment) || negb (is_dict shipment));
    [intros H; inversion H; auto|].
  destruct (extract_address _) as [[o_city o_state] o_pin].
  destruct (extract_address _) as [[d_city d_state] d_pin].
  intros H.
  unbind H pickup_event Epe. unbind H delivery_event Ede.
  unbind H pickup_time0 Ep0. unbind H delivery_time0 Ed0.
  unbind H pickup_time Ep. unbind H delivery_time Edt.
  unbind H transit Etr. unbind H facilities_count Ef.
  unbind H transit_events_count Ec. unbind H facility_transit_time Ei.
  unbind H delivery_attempts Ea. unbind H total_events En.
  discriminate H.
Qed.

(** X17.  A record gives no output record exactly when it is falsy (absent,
    or an empty mapping) or is not a mapping, and then nothing is printed;
    every other record gives an output record or raises. *)
Theorem no_record_only_for_empty_or_non_mapping (shipment : value) (w : list warning) :
  process_shipment tz repr shipment = (w, Ok None)
  <-> w = [] /\ (truthy shipment = false \/ is_dict shipment = false).
Proof.
  split.
  - intros H. destruct (process_shipment_none _ _ H) as [-> Hg].
    split; [reflexivity|].
    destruct (truthy shipment); [|auto]. destruct (is_dict shipment); [|auto].
    discriminate Hg.
  - intros [-> [H|H]]; unfold process_shipment; rewrite H; cbn [negb orb];
      [reflexivity | rewrite orb_true_r; reflexivity].
Qed.

(** X18.  In every output record the total transit duration is known
    exactly when both the pickup date and the delivery date are. *)
Theorem transit_duration_known_iff_both_dates
        (shipment : value) (w : list warning) (r : metrics) :
  process_shipment tz repr shipment = (w, Ok (Some r)) ->
  (total_transit_hours r <> None
   <-> pickup_datetime_ist r <> None /\ delivery_datetime_ist r <> None).
Proof.
  intros H. destruct (process_shipment_record _ _ _ H)
    as (p & d & -> & -> & Ht & _).
  destruct p as [p|], d as [d|]; cbn [option_map] in *.
  - destruct (dt_sub d p) as [us|]; [|discriminate]. cbn in Ht.
    inversion Ht. split; [split|]; discriminate.
  - inversion Ht. split; [congruence|]. intros [_ F]. congruence.
  - inversion Ht. split; [congruence|]. intros [F _]. congruence.
  - inversion Ht. split; [congruence|]. intros [F _]. congruence.
Qed.

(** X19.  In every output record the average hours per facility are present
    exactly when the total transit duration is known and is not zero and at
    least one facility was counted, and then they are the duration divided
    by the facility count; a duration of zero leaves them absent. *)
Theorem average_present_for_nonzero_duration
        (shipment : value) (w : list warning) (r : metrics) :
  process_shipment tz repr shipment = (w, Ok (Some r)) ->
  match avg_hours_per_facility r with
  | Some a =>
      exists t, total_transit_hours r = Some t
                /\ ~ (t == 0)%Q
                /\ 0 < num_facilities_visited r
                /\ a = (t / inject_Z (num_facilities_visited r))%Q
  | None =>
      total_transit_hours r = None
      \/ (exists t, total_transit_hours r = Some t /\ (t == 0)%Q)
      \/ num_facilities_visited r <= 0
  end.
Proof.
  intros H. destruct (process_shipment_record _ _ _ H)
    as (p & d & _ & _ & _ & _ & _ & _ & _ & _ & ->).
  destruct (total_transit_hours r) as [t|]; [|left; reflexivity].
  destruct (Qeq_bool t 0) eqn:Eq; cbn [negb andb].
  - right. left. exists t. split; [reflexivity|]. apply Qeq_bool_iff. exact Eq.
  - destruct (0 <? num_facilities_visited r) eqn:El.
    + exists t. split; [reflexivity|]. split.
      * intros F. apply Qeq_bool_iff in F. congruence.
      * split; [apply Z.ltb_lt; exact El | reflexivity].
    + right. right. apply Z.ltb_ge. exact El.
Qed.

Lemma events_length (events : value) (n : Z) :
  (if truthy events then py_len events else Ok 0) = Ok n ->
  truthy events = false /\ n = 0
  \/ truthy events = true
     /\ exists evs, py_iter events = Ok evs /\ n = Z.of_nat (List.length evs).
Proof.
  destruct (truthy events); [|intros H; inversion H; auto].
  intros H. right. split; [reflexivity|].
  destruct events as [|b|k|x|s|items|entries]; try discriminate;
    inversion H; eexists; (split; [reflexivity|]).
  - f_equal. clear. induction s as [|c s IH]; cbn; congruence.
  - reflexivity.
  - rewrite length_map. reflexivity.
Qed.

(** X20.  In every output record the number of facilities visited, the
    number of in-transit events and the number of out-for-delivery attempts
    lie between 0 and the total number of events. *)
Theorem counts_within_total_events
        (shipment : value) (w : list warning) (r : metrics) :
  process_shipment tz repr shipment = (w, Ok (Some r)) ->
  0 <= num_facilities_visited r <= total_events_count r
  /\ 0 <= num_in_transit_events r <= total_events_count r
  /\ 0 <= num_out_for_delivery_attempts r <= total_events_count r.
Proof.
  intros H. destruct (process_shipment_record _ _ _ H)
    as (p & d & _ & _ & _ & Hf & Hc & Ha & Hn & _).
  unfold count_unique_facilities in Hf.
  unfold count_transit_events in Hc.
  unfold count_delivery_attempts in Ha.
  destruct (events_length _ _ Hn) as [[Et ->]|[Et (evs & Ei & ->)]];
    rewrite Et in Hf, Hc, Ha; cbn [negb] in Hf, Hc, Ha.
  - inversion Hf. inversion Hc. inversion Ha. lia.
  - rewrite Ei in Hf, Hc, Ha. cbn [bind_outcome] in Hf, Hc, Ha.
    rewrite fold_count in Hc, Ha.
    inversion Hf as [Hf']. inversion Hc as [Hc']. inversion Ha as [Ha'].
    destruct (facility_fold_spec repr evs [] (NoDup_nil _)) as (_ & _ & Hlen).
    pose proof (filter_length_le (fun e => eq_str (event_type e) "IT") evs).
    pose proof (filter_length_le (attempt_test repr) evs).
    cbn [List.length] in Hlen. lia.
Qed.

(** X21.  A record whose pickup and delivery instants are not both
    offset-free or both offset-carrying cannot be summarized: subtracting
    them raises a type error, whatever else the record holds. *)
Theorem mixed_clock_record_raises
        (shipment : value) (pickup_event delivery_event : option value)
        (w1 w2 : list warning) (p d : datetime) :
  truthy shipment = true ->
  is_dict shipment = true ->
  find_pickup_event repr (get_nested_value shipment ["events"] (VList []))
  = Ok pickup_event ->
  find_delivery_event repr (get_nested_value shipment ["events"] (VList []))
  = Ok delivery_event ->
  event_time tz pickup_event = (w1, Ok (Some p)) ->
  event_time tz delivery_event = (w2, Ok (Some d)) ->
  (utcoffset p = None <-> utcoffset d <> None) ->
  process_shipment tz repr shipment = (w1 ++ w2, Raise TypeError).
Proof.
  intros Ht Hd Hpe Hde Hp Hdl Hmix. unfold process_shipment.
  rewrite Ht, Hd. cbn [negb orb].
  destruct (extract_address _) as [[o_city o_state] o_pin].
  destruct (extract_address _) as [[d_city d_state] d_pin].
  rewrite Hpe, Hde. unfold lift at 1 2. unfold bind at 1. unfold bind at 1.
  rewrite Hp. unfold bind at 1. rewrite Hdl. unfold bind at 1.
  unfold ret at 1. unfold bind at 1. unfold ret at 1. unfold bind at 1.
  assert (Hsub : dt_sub d p = Raise TypeError).
  { unfold dt_sub. destruct (utcoffset p), (utcoffset d); try reflexivity.
    - exfalso. assert (F : Some z = None) by (apply Hmix; discriminate). discriminate.
    - exfalso. apply (proj1 Hmix); reflexivity. }
  rewrite Hsub. cbn. rewrite !app_nil_r. reflexivity.
Qed.

Lemma to_upper_upper (c : ascii) : Text.to_upper (Text.to_upper c) = Text.to_upper c.
Proof. destruct c as [[] [] [] [] [] [] [] []]; reflexivity. Qed.

Lemma to_upper_lower (c : ascii) : Text.to_upper (Text.to_lower c) = Text.to_upper c.
Proof. destruct c as [[] [] [] [] [] [] [] []]; reflexivity. Qed.

Lemma upper_upper (s : string) : Text.upper (Text.upper s) = Text.upper s.
Proof. induction s as [|c s IH]; cbn; [reflexivity|]. now rewrite to_upper_upper, IH. Qed.

Lemma upper_lower (s : string) : Text.upper (Text.lower s) = Text.upper s.
Proof. induction s as [|c s IH]; cbn; [reflexivity|]. now rewrite to_upper_lower, IH. Qed.

(** X22.  The express flag of a service type given as ASCII text does not
    depend on the letter case of the text, and it is never set for a text
    that mentions SAVER in any letter case. *)
Theorem express_flag_ignores_letter_case (s : string) :
  Text.is_ascii s = true ->
  is_express_service repr (VStr (Text.upper s)) = is_express_service repr (VStr s)
  /\ is_express_service repr (VStr (Text.lower s)) = is_express_service repr (VStr s)
  /\ (Text.contains "SAVER" (Text.upper s) = true ->
      is_express_service repr (VStr s) = false).
Proof.
  intros _. unfold is_express_service. cbn [py_str truthy].
  rewrite upper_upper, upper_lower.
  split; [|split].
  - destruct s; reflexivity.
  - destruct s; reflexivity.
  - intros ->. rewrite andb_false_r. destruct (negb _); reflexivity.
Qed.

(** X23.  The dates of an output record come from the events first: the
    pickup date is the wall-clock reading of the pickup event's timestamp
    whenever that event exists and its timestamp parses, and the
    [datesOrTimes] milestone is consulted only otherwise; likewise for the
    delivery date.  The reading is the one written in the timestamp: an
    offset is not applied and nothing is converted to another zone. *)
Theorem dates_come_from_events_before_milestones
        (shipment : value) (w : list warning) (r : metrics) :
  process_shipment tz repr shipment = (w, Ok (Some r)) ->
  let events := get_nested_value shipment ["events"] (VList []) in
  exists (pickup_event delivery_event : option value) (w1 w2 : list warning)
         (p0 d0 : option datetime),
    find_pickup_event repr events = Ok pickup_event
    /\ find_delivery_event repr events = Ok delivery_event
    /\ event_time tz pickup_event = (w1, Ok p0)
    /\ event_time tz delivery_event = (w2, Ok d0)
    /\ match p0 with
       | Some t => pickup_datetime_ist r = Some (wall t / 1000000)
       | None =>
           exists wm m,
             milestone_time tz shipment "ACTUAL_PICKUP" = (wm, Ok m)
             /\ pickup_datetime_ist r = option_map (fun t => wall t / 1000000) m
       end
    /\ match d0 with
       | Some t => delivery_datetime_ist r = Some (wall t / 1000000)
       | None =>
           exists wm m,
             milestone_time tz shipment "ACTUAL_DELIVERY" = (wm, Ok m)
             /\ delivery_datetime_ist r = option_map (fun t => wall t / 1000000) m
       end.
Proof.
  intros H events. unfold process_shipment in H.
  destruct (negb (truthy shipment) || negb (is_dict shipment)); [discriminate|].
  destruct (extract_address _) as [[o_city o_state] o_pin].
  destruct (extract_address _) as [[d_city d_state] d_pin].
  fold events in H.
  unbind H pickup_event Epe. unbind H delivery_event Ede.
  unbind H pickup_time0 Ep0. unbind H delivery_time0 Ed0.
  unbind H pickup_time Ep. unbind H delivery_time Ed.
  unbind H transit Et. unbind H facilities_count Ef.
  unbind H transit_events_count Ec. unbind H facility_transit_time Ei.
  unbind H delivery_attempts Ea. unbind H total_events En.
  unfold ret in H. inversion H as [[Hw Hr]]. clear H.
  apply lift_ok_inv in Epe, Ede. subst r.
  exists pickup_event, delivery_event. do 2 eexists.
  exists pickup_time0, delivery_time0.
  cbn [pickup_datetime_ist delivery_datetime_ist].
  split; [exact Epe|]. split; [exact Ede|].
  split; [exact Ep0|]. split; [exact Ed0|].
  split.
  - destruct pickup_time0 as [t|].
    + unfold ret in Ep. inversion Ep. reflexivity.
    + do 2 eexists. split; [exact Ep|reflexivity].
  - destruct delivery_time0 as [t|].
    + unfold ret in Ed. inversion Ed. reflexivity.
    + do 2 eexists. split; [exact Ed|reflexivity].
Qed.

End Summarizer.

(** ** The loader *)

Section Loader.

Variable tz : Z.
Variable repr : value -> string.

Lemma quiet_filter (log : list warning) :
  no_shipment_warning log -> filter is_shipment_warning log = [].
Proof.
  induction 1 as [|x l Hx _ IH]; [reflexivity|]. cbn [filter]. now rewrite Hx.
Qed.

Lemma quiet_not_in (log : list warning) (idx : nat) :
  no_shipment_warning log -> ~ In (WarnShipment idx) log.
Proof.
  intros H Hin. unfold no_shipment_warning in H. rewrite Forall_forall in H.
  specialize (H _ Hin). discriminate H.
Qed.

Lemma batch_fold (shipment_records : list value) :
  forall (i0 : nat) (log0 : list warning) (out0 : list metrics),
    let st := fold_left (batch_step tz repr) shipment_records (i0, log0, out0) in
    let log := snd (fst st) in
    let out := snd st in
    (List.length out + List.length (filter is_shipment_warning log)
     + List.length (filter (fun s => negb (truthy s) || negb (is_dict s)) shipment_records)
     = List.length out0 + List.length (filter is_shipment_warning log0)
       + List.length shipment_records)%nat
    /\ forall idx,
         In (WarnShipment idx) log
         <-> In (WarnShipment idx) log0
             \/ exists s e, (i0 <= idx)%nat
                            /\ nth_error shipment_records (idx - i0) = Some s
                            /\ snd (process_shipment tz repr s) = Raise e.
Proof.
  induction shipment_records as [|s l IH]; intros i0 log0 out0.
  - cbn. split; [lia|]. intros idx. split; [auto|].
    intros [H|(s & e & _ & H & _)]; [exact H|].
    destruct (idx - i0)%nat; discriminate H.
  - cbn [fold_left].
    pose proof (quiet_process tz repr s) as Hq.
    destruct (process_shipment tz repr s) as [w [[r|]|e]] eqn:Es; cbn [fst] in Hq.
    + assert (Eb : batch_step tz repr (i0, log0, out0) s
                   = (S i0, log0 ++ w, out0 ++ [r]))
        by (unfold batch_step; rewrite Es; reflexivity).
      rewrite Eb.
      destruct (IH (S i0) (log0 ++ w) (out0 ++ [r])) as [Hc Hi]. split.
      * rewrite filter_app, (quiet_filter _ Hq), app_nil_r, length_app in Hc.
        cbn [filter].
        assert (Hk : (negb (truthy s) || negb (is_dict s)) = false).
        { destruct (negb (truthy s) || negb (is_dict s)) eqn:G; [|reflexivity].
          unfold process_shipment in Es. rewrite G in Es. discriminate Es. }
        rewrite Hk. cbn [List.length] in *. lia.
      * intros idx. rewrite Hi, in_app_iff. split.
        -- intros [[H|H]|(s' & e & Hle & Hn & Hr)]; [auto|exfalso; eapply quiet_not_in; eauto|].
           right. exists s', e. split; [lia|]. split; [|exact Hr].
           replace (idx - i0)%nat with (S (idx - S i0)) by lia. exact Hn.
        -- intros [H|(s' & e & Hle & Hn & Hr)]; [auto|].
           destruct (Nat.eq_dec idx i0) as [->|Hne].
           ++ rewrite Nat.sub_diag in Hn. cbn in Hn. inversion Hn; subst s'.
              rewrite Es in Hr. discriminate Hr.
           ++ right. exists s', e. split; [lia|]. split; [|exact Hr].
              replace (idx - i0)%nat with (S (idx - S i0)) in Hn by lia. exact Hn.
    + assert (Eb : batch_step tz repr (i0, log0, out0) s = (S i0, log0 ++ w, out0))
        by (unfold batch_step; rewrite Es; reflexivity).
      rewrite Eb.
      destruct (IH (S i0) (log0 ++ w) out0) as [Hc Hi]. split.
      * rewrite filter_app, (quiet_filter _ Hq), app_nil_r in Hc.
        cbn [filter].
        destruct (process_shipment_none tz repr s w Es) as [_ ->].
        cbn [List.length] in *. lia.
      * intros idx. rewrite Hi, in_app_iff. split.
        -- intros [[H|H]|(s' & e & Hle & Hn & Hr)]; [auto|exfalso; eapply quiet_not_in; eauto|].
           right. exists s', e. split; [lia|]. split; [|exact Hr].
           replace (idx - i0)%nat with (S (idx - S i0)) by lia. exact Hn.
        -- intros [H|(s' & e & Hle & Hn & Hr)]; [auto|].
           destruct (Nat.eq_dec idx i0) as [->|Hne].
           ++ rewrite Nat.sub_diag in Hn. cbn in Hn. inversion Hn; subst s'.
              rewrite Es in Hr. discriminate Hr.
           ++ right. exists s', e. split; [lia|]. split; [|exact Hr].
              replace (idx - i0)%nat with (S (idx - S i0)) in Hn by lia. exact Hn.
    + assert (Eb : batch_step tz repr (i0, log0, out0) s
                   = (S i0, log0 ++ w ++ [WarnShipment i0], out0))
        by (unfold batch_step; rewrite Es; reflexivity).
      rewrite Eb.
      destruct (IH (S i0) (log0 ++ w ++ [WarnShipment i0]) out0) as [Hc Hi]. split.
      * rewrite !filter_app, (quiet_filter _ Hq), !length_app in Hc.
        cbn [filter is_shipment_warning app List.length] in Hc.
        cbn [filter].
        assert (Hk : (negb (truthy s) || negb (is_dict s)) = false).
        { destruct (negb (truthy s) || negb (is_dict s)) eqn:G; [|reflexivity].
          unfold process_shipment in Es. rewrite G in Es. discriminate Es. }
        rewrite Hk. cbn [List.length] in *. lia.
      * intros idx. rewrite Hi, !in_app_iff. split.
        -- intros [[H|[H|H]]|(s' & e' & Hle & Hn & Hr)];
             [auto|exfalso; eapply quiet_not_in; eauto| |].
           ++ destruct H as [H|[]]. inversion H; subst idx.
              right. exists s, e. split; [lia|]. rewrite Nat.sub_diag, Es. auto.
           ++ right. exists s', e'. split; [lia|]. split; [|exact Hr].
              replace (idx - i0)%nat with (S (idx - S i0)) by lia. exact Hn.
        -- intros [H|(s' & e' & Hle & Hn & Hr)]; [auto|].
           destruct (Nat.eq_dec idx i0) as [->|Hne].
           ++ left. right. right. left. reflexivity.
           ++ right. exists s', e'. split; [lia|]. split; [|exact Hr].
              replace (idx - i0)%nat with (S (idx - S i0)) in Hn by lia. exact Hn.
Qed.

(** X24.  The loop over the shipment records accounts for every record
    exactly once: a record gives an output record, or is skipped because it
    is falsy or not a mapping, or raises and leaves a warning that carries
    its position in the batch; a warning with a position is printed for the
    raising records and for no other. *)
Theorem every_record_is_accounted_for (shipment_records : list value) :
  let log := fst (process_records tz repr shipment_records) in
  let out := snd (process_records tz repr shipment_records) in
  (List.length shipment_records
   = List.length out + List.length (filter is_shipment_warning log)
     + List.length (filter (fun s => negb (truthy s) || negb (is_dict s))
                           shipment_records))%nat
  /\ forall idx,
       In (WarnShipment idx) log
       <-> exists s e, nth_error shipment_records idx = Some s
                       /\ snd (process_shipment tz repr s) = Raise e.
Proof.
  unfold process_records.
  destruct (batch_fold shipment_records 0 [] []) as [Hc Hi].
  destruct (fold_left _ _ _) as [[i log] out]. cbn [fst snd] in *.
  change (List.length (filter is_shipment_warning [])) with 0%nat in Hc.
  change (@List.length metrics []) with 0%nat in Hc.
  split; [lia|].
  intros idx. rewrite Hi, Nat.sub_0_r. split.
  - intros [[]|(s & e & _ & H)]. eauto.
  - intros (s & e & H). right. exists s, e. split; [lia|exact H].
Qed.

Lemma batch_of_non_mappings (shipment_records : list value) :
  Forall (fun s => is_dict s = false) shipment_records ->
  forall i log out,
    fold_left (batch_step tz repr) shipment_records (i, log, out)
    = ((i + List.length shipment_records)%nat, log, out).
Proof.
  induction 1 as [|s l Hs _ IH]; intros i log out.
  - cbn. now rewrite Nat.add_0_r.
  - cbn [fold_left]. unfold batch_step at 2.
    rewrite (process_malformed tz repr s Hs), app_nil_r, IH.
    cbn [List.length]. f_equal. f_equal. lia.
Qed.

Lemma flatten_without_containers (items : list value) :
  Forall (fun item => match item with
                      | VDict entries => dict_get "trackDetails" entries = None
                      | _ => True
                      end) items ->
  forall acc,
    flatten_items items acc = Ok (acc ++ filter (fun v => negb (is_dict v)) items).
Proof.
  induction 1 as [|item l Hi _ IH]; intros acc.
  - cbn. now rewrite app_nil_r.
  - destruct item; cbn [flatten_items filter is_dict negb];
      try (rewrite IH, <- app_assoc; reflexivity).
    rewrite Hi. cbn [py_iter bind_outcome]. rewrite IH, app_nil_r. reflexivity.
Qed.

(** X25.  A document whose top level is a list yields output records only
    through the [trackDetails] of its mappings: when no mapping of the list
    has that key, nothing is produced and nothing is printed, even if the
    mappings are shipment records themselves. *)
Theorem top_level_list_needs_track_details (items : list value) :
  Forall (fun item => match item with
                      | VDict entries => dict_get "trackDetails" entries = None
                      | _ => True
                      end) items ->
  load_data tz repr (VList items) = ([], Ok []).
Proof.
  intros H. unfold load_data. rewrite (flatten_without_containers items H).
  cbn [app]. unfold process_records.
  rewrite batch_of_non_mappings; [reflexivity|].
  apply Forall_forall. intros s Hs. apply filter_In in Hs.
  destruct (is_dict s); [destruct Hs; discriminate|reflexivity].
Qed.

Lemma flatten_containers (items : list value) (batches : list (list value)) :
  Forall2 (fun item batch =>
             exists entries, item = VDict entries
                             /\ dict_get "trackDetails" entries = Some (VList batch))
          items batches ->
  forall acc, flatten_items items acc = Ok (acc ++ List.concat batches).
Proof.
  induction 1 as [|item batch l bs (entries & -> & Hd) _ IH]; intros acc.
  - cbn. now rewrite app_nil_r.
  - cbn [flatten_items List.concat]. rewrite Hd. cbn [py_iter bind_outcome].
    rewrite IH, <- app_assoc. reflexivity.
Qed.

(** X26.  For a top-level list of containers, each a mapping whose
    [trackDetails] is a list, the records of all containers are processed as
    one batch in document order. *)
Theorem containers_are_processed_as_one_batch
        (items : list value) (batches : list (list value)) :
  Forall2 (fun item batch =>
             exists entries, item = VDict entries
                             /\ dict_get "trackDetails" entries = Some (VList batch))
          items batches ->
  load_data tz repr (VList items)
  = (fst (process_records tz repr (List.concat batches)),
     Ok (snd (process_records tz repr (List.concat batches)))).
Proof.
  intros H. unfold load_data. rewrite (flatten_containers items batches H).
  cbn [app]. destruct (process_records tz repr (List.concat batches)). reflexivity.
Qed.

(** X27.  A container at the top level is read like a list holding that
    one container, whatever its [trackDetails] is. *)
Theorem container_alone_or_in_a_list (entries : list (string * value)) (v : value) :
  dict_get "trackDetails" entries = Some v ->
  load_data tz repr (VList [VDict entries]) = load_data tz repr (VDict entries).
Proof.
  intros H. unfold load_data. cbn [flatten_items]. rewrite H.
  destruct v; cbn [py_iter py_len bind_outcome flatten_items app]; reflexivity.
Qed.

End Loader.

(** ** The host's time zone *)

Section HostZone.

Variable tz tz' : Z.
Variable repr : value -> string.





Section Shift.

Variable delta : Z.

(** The clock the timeline of the other host is read on. *)
Variable ahead : Z.
Hypothesis ahead_eq : ahead = delta + (tz' - tz) * 1000000.










End Shift.


End HostZone.


(** ** The further properties at concrete inputs, on a host clock at IST *)

(** X12 on two facility arrivals three hours apart. *)
Lemma distinct_timestamps_are_not_moved_witness :
  Forall (fun x => stamp ist (snd x) = Some (timestamp_of ist (fst x)))
         (snd (build_timeline ist [Samples.visit_a1; Samples.visit_b])).
Proof.
  apply distinct_timestamps_are_not_moved.
  vm_compute. constructor; [|constructor; [|constructor]].
  - intros [H|[]]. discriminate H.
  - intros [].
Defined.




(** X18 on an ordinary shipment. *)
Lemma transit_duration_known_iff_both_dates_witness :
  exists r,
    process_shipment ist repr_blank Samples.shipment_ok = ([], Ok (Some r))
    /\ (total_transit_hours r <> None
        <-> pickup_datetime_ist r <> None /\ delivery_datetime_ist r <> None).
Proof.
  eexists. split; [vm_compute; reflexivity|].
  eapply (transit_duration_known_iff_both_dates ist repr_blank Samples.shipment_ok []).
  vm_compute. reflexivity.
Defined.

(** X19 on an ordinary shipment. *)
Lemma average_present_for_nonzero_duration_witness :
  exists r,
    process_shipment ist repr_blank Samples.shipment_ok = ([], Ok (Some r))
    /\ exists a t,
         avg_hours_per_facility r = Some a
         /\ total_transit_hours r = Some t
         /\ ~ (t == 0)%Q
         /\ 0 < num_facilities_visited r
         /\ a = (t / inject_Z (num_facilities_visited r))%Q.
Proof.
  eexists. split; [vm_compute; reflexivity|].
  match goal with
  | |- exists a t, avg_hours_per_facility ?r = _ /\ _ =>
      assert (H : process_shipment ist repr_blank Samples.shipment_ok = ([], Ok (Some r)))
        by (vm_compute; reflexivity);
      pose proof (average_present_for_nonzero_duration ist repr_blank _ _ _ H) as Ha
  end.
  cbn [avg_hours_per_facility] in Ha.
  destruct Ha as (t & Ht & Hnz & Hpos & Ha).
  eexists. exists t. split; [reflexivity|].
  split; [exact Ht|]. split; [exact Hnz|]. split; [exact Hpos|exact Ha].
Defined.

(** X20 on an ordinary shipment. *)
Lemma counts_within_total_events_witness :
  exists r,
    process_shipment ist repr_blank Samples.shipment_ok = ([], Ok (Some r))
    /\ 0 <= num_facilities_visited r <= total_events_count r
    /\ 0 <= num_in_transit_events r <= total_events_count r
    /\ 0 <= num_out_for_delivery_attempts r <= total_events_count r.
Proof.
  eexists. split; [vm_compute; reflexivity|].
  eapply (counts_within_total_events ist repr_blank Samples.shipment_ok []).
  vm_compute. reflexivity.
Defined.

(** X21 on a shipment picked up on an offset-free clock and delivered on a
    UTC clock. *)
Lemma mixed_clock_record_raises_witness :
  process_shipment ist repr_blank Samples.shipment_mixed_clocks = ([], Raise TypeError).
Proof.
  eapply (mixed_clock_record_raises ist repr_blank Samples.shipment_mixed_clocks
            _ _ [] []).
  - reflexivity.
  - reflexivity.
  - vm_compute. reflexivity.
  - vm_compute. reflexivity.
  - vm_compute. reflexivity.
  - vm_compute. reflexivity.
  - vm_compute. split; [discriminate | reflexivity].
Defined.

(** X22 on a service type in mixed case. *)
Lemma express_flag_ignores_letter_case_witness :
  is_express_service repr_blank (VStr (Text.upper "FedEx_Express_Saver"))
  = is_express_service repr_blank (VStr "FedEx_Express_Saver")
  /\ is_express_service repr_blank (VStr "FedEx_Express_Saver") = false.
Proof.
  destruct (express_flag_ignores_letter_case repr_blank "FedEx_Express_Saver")
    as (Hu & _ & Hs); [reflexivity|].
  split; [exact Hu|]. apply Hs. reflexivity.
Defined.

(** X25 on a list of a bare shipment record and a number. *)
Lemma top_level_list_needs_track_details_witness :
  load_data ist repr_blank (VList [Samples.shipment_ok; VInt 3]) = ([], Ok []).
Proof.
  apply top_level_list_needs_track_details.
  constructor; [reflexivity|]. constructor; [exact I|constructor].
Defined.

(** X26 on a list of two containers. *)
Lemma containers_are_processed_as_one_batch_witness :
  let batch := [Samples.shipment_ok; Samples.shipment_bare] in
  load_data ist repr_blank (VList [VDict Samples.container; VDict Samples.container])
  = (fst (process_records ist repr_blank (batch ++ batch)),
     Ok (snd (process_records ist repr_blank (batch ++ batch)))).
Proof.
  intros batch.
  apply (containers_are_processed_as_one_batch ist repr_blank
           [VDict Samples.container; VDict Samples.container] [batch; batch]).
  constructor; [eexists; split; reflexivity|].
  constructor; [eexists; split; reflexivity|constructor].
Defined.

(** X27 on one container. *)
Lemma container_alone_or_in_a_list_witness :
  load_data ist repr_blank (VList [VDict Samples.container])
  = load_data ist repr_blank (VDict Samples.container).
Proof.
  apply (container_alone_or_in_a_list ist repr_blank Samples.container
           (VList [Samples.shipment_ok; Samples.shipment_bare])).
  reflexivity.
Defined.

(** X23 on a shipment picked up and delivered on a UTC clock: the dates are
    the readings of the events' timestamps as written. *)
Lemma dates_come_from_events_before_milestones_witness :
  exists r,
    process_shipment ist repr_blank Samples.shipment_utc = ([], Ok (Some r))
    /\ pickup_datetime_ist r = Some 1709280000
    /\ delivery_datetime_ist r = Some 1709366400
    /\ exists (pickup_event delivery_event : option value) (w1 w2 : list warning)
              (p0 d0 : option datetime),
         find_pickup_event repr_blank
           (get_nested_value Samples.shipment_utc ["events"] (VList []))
         = Ok pickup_event
         /\ find_delivery_event repr_blank
              (get_nested_value Samples.shipment_utc ["events"] (VList []))
            = Ok delivery_event
         /\ event_time ist pickup_event = (w1, Ok p0)
         /\ event_time ist delivery_event = (w2, Ok d0)
         /\ match p0 with
            | Some t => pickup_datetime_ist r = Some (wall t / 1000000)
            | None =>
                exists wm m,
                  milestone_time ist Samples.shipment_utc "ACTUAL_PICKUP" = (wm, Ok m)
                  /\ pickup_datetime_ist r = option_map (fun t => wall t / 1000000) m
            end
         /\ match d0 with
            | Some t => delivery_datetime_ist r = Some (wall t / 1000000)
            | None =>
                exists wm m,
                  milestone_time ist Samples.shipment_utc "ACTUAL_DELIVERY" = (wm, Ok m)
                  /\ delivery_datetime_ist r = option_map (fun t => wall t / 1000000) m
            end.
Proof.
  eexists. split; [vm_compute; reflexivity|].
  split; [reflexivity|]. split; [reflexivity|].
  apply (dates_come_from_events_before_milestones ist repr_blank
           Samples.shipment_utc []).
  vm_compute. reflexivity.
Defined.
